(** * Credential portal: the two React components [VerificationPortal] and
    [StudentWallet], embedded as asynchronous event handlers over their
    [useState] cells.

    A handler is a closure over the state of the render that created it (its
    snapshot): it reads state only through that snapshot and writes it only
    through setter calls.  A handler is therefore embedded as a function from
    the snapshot to a small program of setter calls, [console.error] calls,
    awaited service calls and un-awaited calls of other async functions; the
    program is run against the replies of the services to a trace, and the
    setter calls of the trace are replayed on the state cells.  A handler
    that awaits can be overtaken: its trace is cut at the await, and other
    handlers run between the two parts. *)

From Stdlib Require Import List NArith ZArith Bool String Ascii Arith Lia.
Import ListNotations.

(** ** JavaScript values used by the components *)

Module Js.

(** A JavaScript string is a sequence of UTF-16 code units. *)
Definition jsstring : Type := list N.

(** String literals of the source (all of them ASCII). *)
Definition js (s : string) : jsstring :=
  map N_of_ascii (list_ascii_of_string s).

(** WhiteSpace and LineTerminator of ECMAScript, the code units that
    [String.prototype.trim] strips. *)
Definition isWhiteSpace (c : N) : bool :=
  ((c =? 0x9) || (c =? 0xA) || (c =? 0xB) || (c =? 0xC) || (c =? 0xD)
   || (c =? 0x20) || (c =? 0xA0) || (c =? 0x1680)
   || ((0x2000 <=? c) && (c <=? 0x200A))
   || (c =? 0x2028) || (c =? 0x2029) || (c =? 0x202F) || (c =? 0x205F)
   || (c =? 0x3000) || (c =? 0xFEFF))%N.

Fixpoint trimStart (s : jsstring) : jsstring :=
  match s with
  | c :: rest => if isWhiteSpace c then trimStart rest else s
  | [] => []
  end.

Definition trimEnd (s : jsstring) : jsstring := rev (trimStart (rev s)).

Definition trim (s : jsstring) : jsstring := trimEnd (trimStart s).

(** Truthiness of a string: every string but the empty one. *)
Definition truthy (s : jsstring) : bool :=
  match s with [] => false | _ :: _ => true end.

(** Truthiness of [string | null] and of [string | undefined]. *)
Definition truthy_opt (o : option jsstring) : bool :=
  match o with Some s => truthy s | None => false end.

(** [a || b] where [a] is [string | undefined] and [b] a string. *)
Definition or_else (a : option jsstring) (b : jsstring) : jsstring :=
  match a with
  | Some s => if truthy s then s else b
  | None => b
  end.

(** A thrown value, as far as the handlers look at it.  A promise can reject
    with anything: [nullish] is null or undefined; of every other value the
    handlers read the [message] property only, a string, or [None] when the
    value has no message (undefined, null). *)
Inductive JsError : Type :=
| nullish
| thrown (message : option jsstring).

(** The TypeError that reading a property of null or undefined raises.  Its
    text is the engine's; no handler of the two components reads it. *)
Definition typeError : JsError :=
  thrown (Some (js "Cannot read properties of undefined (reading 'message')")).

(** [err.message]: the property, or the TypeError when [err] is null or
    undefined. *)
Definition message (err : JsError) : option jsstring + JsError :=
  match err with
  | nullish => inr typeError
  | thrown m => inl m
  end.

(** [s.slice(start, end)] with integer arguments; [stop] is [None] when the
    second argument is left out.  A negative index counts from the end, both
    indices are clamped to the string, and an empty range gives the empty
    string. *)
Definition slice (s : jsstring) (start : Z) (stop : option Z) : jsstring :=
  let len := Z.of_nat (List.length s) in
  let clamp (i : Z) := if (i <? 0)%Z then Z.max (len + i) 0 else Z.min i len in
  let from := clamp start in
  let to := match stop with Some e => clamp e | None => len end in
  firstn (Z.to_nat (to - from)) (skipn (Z.to_nat from) s).

(** [a === b] on strings. *)
Definition strictEq (a b : jsstring) : bool :=
  if list_eq_dec N.eq_dec a b then true else false.

End Js.
Import Js.

(** ** Asynchronous handlers *)

Module Async.
Section Programs.

(** [Act]: the setter calls of a component; [Call]: the external calls it
    awaits; [Reply c]: what call [c] resolves to. *)
Variable Act : Type.
Variable Call : Type.
Variable Reply : Call -> Type.

Inductive Prog : Type :=
| Done
| Throw (e : JsError)
| SetState (u : Act) (k : Prog)
| ConsoleError (label : jsstring) (e : JsError) (k : Prog)
| Await (c : Call) (k : Reply c + JsError -> Prog)
| Fork (child : Prog) (k : Prog).

(** [const x = await c; k x]: a rejected promise throws at the await. *)
Definition await (c : Call) (k : Reply c -> Prog) : Prog :=
  Await c (fun r => match r with inl v => k v | inr e => Throw e end).

(** [p; q] *)
Fixpoint seq (p q : Prog) : Prog :=
  match p with
  | Done => q
  | Throw e => Throw e
  | SetState u k => SetState u (seq k q)
  | ConsoleError l e k => ConsoleError l e (seq k q)
  | Await c k => Await c (fun r => seq (k r) q)
  | Fork child k => Fork child (seq k q)
  end.

(** [try { p } catch (err) { h err }].  A forked call is a promise nobody
    awaits: what it throws is not caught here. *)
Fixpoint try_catch (p : Prog) (h : JsError -> Prog) : Prog :=
  match p with
  | Done => Done
  | Throw e => h e
  | SetState u k => SetState u (try_catch k h)
  | ConsoleError l e k => ConsoleError l e (try_catch k h)
  | Await c k => Await c (fun r => try_catch (k r) h)
  | Fork child k => Fork child (try_catch k h)
  end.

(** [try { p } finally { f }]: [f] runs on both exits, and a pending throw
    continues after it. *)
Fixpoint try_finally (p : Prog) (f : Prog) : Prog :=
  match p with
  | Done => f
  | Throw e => seq f (Throw e)
  | SetState u k => SetState u (try_finally k f)
  | ConsoleError l e k => ConsoleError l e (try_finally k f)
  | Await c k => Await c (fun r => try_finally (k r) f)
  | Fork child k => Fork child (try_finally k f)
  end.

(** What a run does, in order. *)
Inductive Event : Type :=
| EvSet (u : Act)
| EvLog (label : jsstring) (e : JsError)
| EvCall (c : Call)
| EvUncaught (e : JsError).

(** The replies of the external services: a value or a rejection. *)
Definition Env : Type := forall c : Call, Reply c + JsError.

(** The events of a forked call up to its first await run inside the
    caller; the rest run once the caller has finished. *)
Fixpoint until_await (l : list Event) : list Event :=
  match l with
  | [] => []
  | EvCall c :: _ => [EvCall c]
  | ev :: rest => ev :: until_await rest
  end.

Fixpoint after_await (l : list Event) : list Event :=
  match l with
  | [] => []
  | EvCall _ :: rest => rest
  | _ :: rest => after_await rest
  end.

(** [now]: the events of the handler's own control flow; [later]: the
    events of the calls it forked, after their first await.  No handler of
    the two components awaits after it has forked. *)
Record Run : Type := { now : list Event; later : list Event }.

Fixpoint exec (env : Env) (p : Prog) : Run :=
  match p with
  | Done => {| now := []; later := [] |}
  | Throw e => {| now := [EvUncaught e]; later := [] |}
  | SetState u k =>
      let r := exec env k in {| now := EvSet u :: now r; later := later r |}
  | ConsoleError l e k =>
      let r := exec env k in {| now := EvLog l e :: now r; later := later r |}
  | Await c k =>
      let r := exec env (k (env c)) in
      {| now := EvCall c :: now r; later := later r |}
  | Fork child k =>
      let c := exec env child in
      let r := exec env k in
      {| now := until_await (now c) ++ now r;
         later := after_await (now c) ++ later c ++ later r |}
  end.

Definition trace (env : Env) (p : Prog) : list Event :=
  now (exec env p) ++ later (exec env p).

(** Replaying the setter calls of a trace on the state cells. *)
Variable State : Type.
Variable apply : Act -> State -> State.

Fixpoint replay (tr : list Event) (s : State) : State :=
  match tr with
  | [] => s
  | EvSet u :: rest => replay rest (apply u s)
  | _ :: rest => replay rest s
  end.

Definition run (env : Env) (p : Prog) (s : State) : State :=
  replay (trace env p) s.

End Programs.

Arguments Done {Act Call Reply}.
Arguments Throw {Act Call Reply} e.
Arguments SetState {Act Call Reply} u k.
Arguments ConsoleError {Act Call Reply} label e k.
Arguments Await {Act Call Reply} c k.
Arguments Fork {Act Call Reply} child k.
Arguments await {Act Call Reply} c k.
Arguments seq {Act Call Reply} p q.
Arguments try_catch {Act Call Reply} p h.
Arguments try_finally {Act Call Reply} p f.
Arguments EvSet {Act Call} u.
Arguments EvLog {Act Call} label e.
Arguments EvCall {Act Call} c.
Arguments EvUncaught {Act Call} e.
Arguments until_await {Act Call} l.
Arguments after_await {Act Call} l.
Arguments now {Act Call} r.
Arguments later {Act Call} r.
Arguments exec {Act Call Reply} env p.
Arguments trace {Act Call Reply} env p.
Arguments replay {Act Call State} apply tr s.
Arguments run {Act Call Reply State} apply env p s.

End Async.
Import Async.

Declare Scope prog_scope.
Delimit Scope prog_scope with prog.
Notation "u ;; k" := (SetState u k)
  (at level 61, right associativity) : prog_scope.
Notation "'let!' x ':=' 'await' c 'in' k" := (await c (fun x => k))
  (at level 61, x name, c at level 9, right associativity) : prog_scope.
Local Open Scope prog_scope.

(** ** The record types the components import *)

(** Modelled from the spec: the type [Credential] of [../types/credential],
    the on-chain view of a credential, with the fields the spec's data model
    lists and the components read. *)
Module Credential.
Record t : Type := {
  tokenId : jsstring;
  degree : jsstring;
  institution : jsstring;
  issueDate : Z;
  student : jsstring;
  ipfsHash : jsstring;
  revoked : bool
}.
End Credential.

(** Modelled from the spec: the type [CredentialRecord] of [../utils/supabase],
    the backing-store mirror of a credential, keyed by an internal
    identifier and a token identifier. *)
Module CredentialRecord.
Record t : Type := {
  id : jsstring;
  token_id : jsstring
}.
End CredentialRecord.

(** Modelled from the spec: what [checkUserSubscription] resolves to, an
    object with the field [hasAccess]. *)
Module Subscription.
Record t : Type := { hasAccess : bool }.
End Subscription.

(** ** VerificationPortal.tsx *)

Module VerificationPortal.

(** The [useState] cells of the component. *)
Record State : Type := {
  tokenId : jsstring;
  credential : option Credential.t;
  loading : bool;
  error : option jsstring;
  searched : bool;
  walletAddress : option jsstring;
  hasAccess : bool;
  checkingAccess : bool;
  showPricing : bool;
  verificationCount : nat
}.

(** The state of the first render. *)
Definition initialState : State := {|
  tokenId := [];
  credential := None;
  loading := false;
  error := None;
  searched := false;
  walletAddress := None;
  hasAccess := false;
  checkingAccess := false;
  showPricing := false;
  verificationCount := 0
|}.

(** The setters.  [setVerificationCount] is only ever called with an updater
    function. *)
Inductive Act : Type :=
| setTokenId (v : jsstring)
| setCredential (v : option Credential.t)
| setLoading (v : bool)
| setError (v : option jsstring)
| setSearched (v : bool)
| setWalletAddress (v : option jsstring)
| setHasAccess (v : bool)
| setCheckingAccess (v : bool)
| setShowPricing (v : bool)
| setVerificationCount (f : nat -> nat).

Definition apply (u : Act) (s : State) : State :=
  match u with
  | setTokenId v =>
      {| tokenId := v; credential := credential s; loading := loading s;
         error := error s; searched := searched s;
         walletAddress := walletAddress s; hasAccess := hasAccess s;
         checkingAccess := checkingAccess s; showPricing := showPricing s;
         verificationCount := verificationCount s |}
  | setCredential v =>
      {| tokenId := tokenId s; credential := v; loading := loading s;
         error := error s; searched := searched s;
         walletAddress := walletAddress s; hasAccess := hasAccess s;
         checkingAccess := checkingAccess s; showPricing := showPricing s;
         verificationCount := verificationCount s |}
  | setLoading v =>
      {| tokenId := tokenId s; credential := credential s; loading := v;
         error := error s; searched := searched s;
         walletAddress := walletAddress s; hasAccess := hasAccess s;
         checkingAccess := checkingAccess s; showPricing := showPricing s;
         verificationCount := verificationCount s |}
  | setError v =>
      {| tokenId := tokenId s; credential := credential s; loading := loading s;
         error := v; searched := searched s;
         walletAddress := walletAddress s; hasAccess := hasAccess s;
         checkingAccess := checkingAccess s; showPricing := showPricing s;
         verificationCount := verificationCount s |}
  | setSearched v =>
      {| tokenId := tokenId s; credential := credential s; loading := loading s;
         error := error s; searched := v;
         walletAddress := walletAddress s; hasAccess := hasAccess s;
         checkingAccess := checkingAccess s; showPricing := showPricing s;
         verificationCount := verificationCount s |}
  | setWalletAddress v =>
      {| tokenId := tokenId s; credential := credential s; loading := loading s;
         error := error s; searched := searched s;
         walletAddress := v; hasAccess := hasAccess s;
         checkingAccess := checkingAccess s; showPricing := showPricing s;
         verificationCount := verificationCount s |}
  | setHasAccess v =>
      {| tokenId := tokenId s; credential := credential s; loading := loading s;
         error := error s; searched := searched s;
         walletAddress := walletAddress s; hasAccess := v;
         checkingAccess := checkingAccess s; showPricing := showPricing s;
         verificationCount := verificationCount s |}
  | setCheckingAccess v =>
      {| tokenId := tokenId s; credential := credential s; loading := loading s;
         error := error s; searched := searched s;
         walletAddress := walletAddress s; hasAccess := hasAccess s;
         checkingAccess := v; showPricing := showPricing s;
         verificationCount := verificationCount s |}
  | setShowPricing v =>
      {| tokenId := tokenId s; credential := credential s; loading := loading s;
         error := error s; searched := searched s;
         walletAddress := walletAddress s; hasAccess := hasAccess s;
         checkingAccess := checkingAccess s; showPricing := v;
         verificationCount := verificationCount s |}
  | setVerificationCount f =>
      {| tokenId := tokenId s; credential := credential s; loading := loading s;
         error := error s; searched := searched s;
         walletAddress := walletAddress s; hasAccess := hasAccess s;
         checkingAccess := checkingAccess s; showPricing := showPricing s;
         verificationCount := f (verificationCount s) |}
  end.

(** The external calls the component awaits: [verifyCredential] and
    [connectWallet] of [../utils/blockchain], [checkUserSubscription] of
    [../utils/subscriptions], and
    [window.ethereum.request({ method: 'eth_accounts' })]. *)
Inductive Call : Type :=
| verifyCredential (id : jsstring)
| connectWallet
| checkUserSubscription (address : jsstring) (role : jsstring)
| eth_accounts.

Definition Reply (c : Call) : Type :=
  match c with
  | verifyCredential _ => option Credential.t
  | connectWallet => option jsstring
  | checkUserSubscription _ _ => Subscription.t
  | eth_accounts => list jsstring
  end.

Definition Prog : Type := Async.Prog Act Call Reply.
Definition Env : Type := Async.Env Call Reply.
Definition Event : Type := Async.Event Act Call.

(** What the component reads of the browser on mount: the value of
    [urlParams.get('verify')] and whether [window.ethereum] is there. *)
Record Window : Type := {
  verifyParam : option jsstring;
  ethereum : bool
}.

Definition checkWalletConnection (w : Window) : Prog :=
  if ethereum w then
    try_catch
      (let! accounts := await eth_accounts in
       if 0 <? List.length accounts then
         setWalletAddress (nth_error accounts 0) ;; Done
       else Done)
      (fun error => ConsoleError (js "Error checking wallet:") error Done)
  else Done.

Definition handleConnectWallet : Prog :=
  let! address := await connectWallet in
  if truthy_opt address then setWalletAddress address ;; Done else Done.

Definition checkAccess (st : State) : Prog :=
  match walletAddress st with
  | Some address =>
      if negb (truthy address) then Done
      else
        setCheckingAccess true ;;
        let! r := await (checkUserSubscription address (js "employer")) in
        setHasAccess (Subscription.hasAccess r) ;;
        setCheckingAccess false ;;
        Done
  | None => Done
  end.

(** [id || tokenId] *)
Definition idToVerify (st : State) (id : option jsstring) : jsstring :=
  or_else id (tokenId st).

(** [walletAddress && !hasAccess && verificationCount >= 3] *)
Definition capReached (st : State) : bool :=
  truthy_opt (walletAddress st) && negb (hasAccess st)
  && (3 <=? verificationCount st).

Definition handleVerify (st : State) (id : option jsstring) : Prog :=
  let idToVerify := idToVerify st id in
  if negb (truthy (trim idToVerify)) then
    setError (Some (js "Please enter a token ID")) ;;
    Done
  else if capReached st then
    setError
      (Some (js "Verification limit reached. Please subscribe to continue.")) ;;
    setShowPricing true ;;
    Done
  else
    setLoading true ;;
    setError None ;;
    setCredential None ;;
    setSearched true ;;
    try_finally
      (try_catch
         (let! result := await (verifyCredential idToVerify) in
          match result with
          | Some r =>
              setCredential (Some r) ;;
              if truthy_opt (walletAddress st) && negb (hasAccess st) then
                setVerificationCount (fun prev => prev + 1) ;; Done
              else Done
          | None =>
              setError (Some (js "Credential not found or invalid token ID")) ;;
              Done
          end)
         (fun err =>
            match message err with
            | inl m =>
                setError
                  (Some (or_else m (js "Failed to verify credential"))) ;;
                Done
            | inr e => Throw e
            end))
      (setLoading false ;; Done).

(** The effect run once after the first render; its closure is the one of
    the first render, and the two async functions it calls are not awaited. *)
Definition onMount (w : Window) : Prog :=
  let checkWallet := Fork (checkWalletConnection w) Done in
  match verifyParam w with
  | Some verifyParam =>
      if truthy verifyParam then
        setTokenId verifyParam ;;
        Fork (handleVerify initialState (Some verifyParam)) checkWallet
      else checkWallet
  | None => checkWallet
  end.

(** The effect run when [walletAddress] has changed. *)
Definition onWalletAddress (st : State) : Prog :=
  if truthy_opt (walletAddress st) then Fork (checkAccess st) Done else Done.

(** [onSuccess] of the pricing modal. *)
Definition onSuccess (st : State) : Prog :=
  setShowPricing false ;; Fork (checkAccess st) Done.

(** What is rendered: the result panel, [searched && credential]; the
    limit banner; the error box; the pricing modal. *)
Definition resultPanel (st : State) : bool :=
  searched st && match credential st with Some _ => true | None => false end.

Definition limitBanner (st : State) : bool := capReached st.

Definition errorBox (st : State) : bool := truthy_opt (error st).

Definition pricingModal (st : State) : bool :=
  showPricing st && truthy_opt (walletAddress st).

(** Running a handler alone, to its end, on the current state cells: no
    other handler runs while it waits for a reply.  What a lookup leaves
    when other handlers run during its await is in [Page]. *)
Definition run (env : Env) (p : Prog) (s : State) : State :=
  Async.run apply env p s.

(** [`${address.slice(0, 6)}...${address.slice(-4)}`] *)
Definition shortenAddress (address : jsstring) : jsstring :=
  slice address 0 (Some 6%Z) ++ js "..." ++ slice address (-4) None.


(** [!searched]: the "Enter Token ID to Verify" placeholder. *)
Definition placeholder (st : State) : bool := negb (searched st).

End VerificationPortal.

(** ** StudentWallet.tsx *)

Module StudentWallet.

Inductive Tab : Type := credentialsTab | profileTab.

(** The [useState] cells of the component. *)
Record State : Type := {
  activeTab : Tab;
  walletAddress : option jsstring;
  credentials : list Credential.t;
  loading : bool;
  selectedCredential : option Credential.t;
  shareCredential : option CredentialRecord.t;
  viewAuditCredential : option jsstring;
  dbCredentials : list CredentialRecord.t;
  view3D : bool
}.

(** The state of the first render. *)
Definition initialState : State := {|
  activeTab := credentialsTab;
  walletAddress := None;
  credentials := [];
  loading := false;
  selectedCredential := None;
  shareCredential := None;
  viewAuditCredential := None;
  dbCredentials := [];
  view3D := false
|}.

Inductive Act : Type :=
| setActiveTab (v : Tab)
| setWalletAddress (v : option jsstring)
| setCredentials (v : list Credential.t)
| setLoading (v : bool)
| setSelectedCredential (v : option Credential.t)
| setShareCredential (v : option CredentialRecord.t)
| setViewAuditCredential (v : option jsstring)
| setDbCredentials (v : list CredentialRecord.t)
| setView3D (v : bool).

Definition apply (u : Act) (s : State) : State :=
  match u with
  | setActiveTab v =>
      {| activeTab := v; walletAddress := walletAddress s;
         credentials := credentials s; loading := loading s;
         selectedCredential := selectedCredential s;
         shareCredential := shareCredential s;
         viewAuditCredential := viewAuditCredential s;
         dbCredentials := dbCredentials s; view3D := view3D s |}
  | setWalletAddress v =>
      {| activeTab := activeTab s; walletAddress := v;
         credentials := credentials s; loading := loading s;
         selectedCredential := selectedCredential s;
         shareCredential := shareCredential s;
         viewAuditCredential := viewAuditCredential s;
         dbCredentials := dbCredentials s; view3D := view3D s |}
  | setCredentials v =>
      {| activeTab := activeTab s; walletAddress := walletAddress s;
         credentials := v; loading := loading s;
         selectedCredential := selectedCredential s;
         shareCredential := shareCredential s;
         viewAuditCredential := viewAuditCredential s;
         dbCredentials := dbCredentials s; view3D := view3D s |}
  | setLoading v =>
      {| activeTab := activeTab s; walletAddress := walletAddress s;
         credentials := credentials s; loading := v;
         selectedCredential := selectedCredential s;
         shareCredential := shareCredential s;
         viewAuditCredential := viewAuditCredential s;
         dbCredentials := dbCredentials s; view3D := view3D s |}
  | setSelectedCredential v =>
      {| activeTab := activeTab s; walletAddress := walletAddress s;
         credentials := credentials s; loading := loading s;
         selectedCredential := v; shareCredential := shareCredential s;
         viewAuditCredential := viewAuditCredential s;
         dbCredentials := dbCredentials s; view3D := view3D s |}
  | setShareCredential v =>
      {| activeTab := activeTab s; walletAddress := walletAddress s;
         credentials := credentials s; loading := loading s;
         selectedCredential := selectedCredential s; shareCredential := v;
         viewAuditCredential := viewAuditCredential s;
         dbCredentials := dbCredentials s; view3D := view3D s |}
  | setViewAuditCredential v =>
      {| activeTab := activeTab s; walletAddress := walletAddress s;
         credentials := credentials s; loading := loading s;
         selectedCredential := selectedCredential s;
         shareCredential := shareCredential s; viewAuditCredential := v;
         dbCredentials := dbCredentials s; view3D := view3D s |}
  | setDbCredentials v =>
      {| activeTab := activeTab s; walletAddress := walletAddress s;
         credentials := credentials s; loading := loading s;
         selectedCredential := selectedCredential s;
         shareCredential := shareCredential s;
         viewAuditCredential := viewAuditCredential s; dbCredentials := v;
         view3D := view3D s |}
  | setView3D v =>
      {| activeTab := activeTab s; walletAddress := walletAddress s;
         credentials := credentials s; loading := loading s;
         selectedCredential := selectedCredential s;
         shareCredential := shareCredential s;
         viewAuditCredential := viewAuditCredential s;
         dbCredentials := dbCredentials s; view3D := v |}
  end.

(** The external calls the component awaits: [connectWallet],
    [switchToSepolia] and [getStudentCredentials] of [../utils/blockchain],
    [getCredentialsByStudent] of [../utils/supabase], and
    [window.ethereum.request({ method: 'eth_accounts' })]. *)
Inductive Call : Type :=
| connectWallet
| switchToSepolia
| getStudentCredentials (address : jsstring)
| getCredentialsByStudent (address : jsstring)
| eth_accounts.

Definition Reply (c : Call) : Type :=
  match c with
  | connectWallet => option jsstring
  | switchToSepolia => unit
  | getStudentCredentials _ => list Credential.t
  | getCredentialsByStudent _ => list CredentialRecord.t
  | eth_accounts => list jsstring
  end.

Definition Prog : Type := Async.Prog Act Call Reply.
Definition Env : Type := Async.Env Call Reply.
Definition Event : Type := Async.Event Act Call.

Definition loadCredentials (address : jsstring) : Prog :=
  setLoading true ;;
  try_finally
    (try_catch
       (let! creds := await (getStudentCredentials address) in
        setCredentials creds ;;
        let! dbCreds := await (getCredentialsByStudent address) in
        setDbCredentials dbCreds ;;
        Done)
       (fun error => ConsoleError (js "Error loading credentials:") error Done))
    (setLoading false ;; Done).

(** [ethereum]: whether [window.ethereum] is there.  [accounts.length > 0]
    is the match on a non-empty list, [accounts[0]] its head. *)
Definition checkWalletConnection (ethereum : bool) : Prog :=
  if ethereum then
    try_catch
      (let! accounts := await eth_accounts in
       match accounts with
       | account :: _ =>
           setWalletAddress (Some account) ;;
           Fork (loadCredentials account) Done
       | [] => Done
       end)
      (fun error =>
         ConsoleError (js "Error checking wallet connection:") error Done)
  else Done.

(** [loadCredentials(address)] is called without [await]. *)
Definition handleConnectWallet : Prog :=
  setLoading true ;;
  try_finally
    (try_catch
       (let! address := await connectWallet in
        match address with
        | Some a =>
            if truthy a then
              setWalletAddress (Some a) ;;
              let! _ := await switchToSepolia in
              Fork (loadCredentials a) Done
            else Done
        | None => Done
        end)
       (fun error => ConsoleError (js "Error connecting wallet:") error Done))
    (setLoading false ;; Done).

(** The effect run once after the first render. *)
Definition onMount (ethereum : bool) : Prog :=
  Fork (checkWalletConnection ethereum) Done.

(** [if (!walletAddress) return <connect screen>] *)
Definition connectScreen (st : State) : bool :=
  negb (truthy_opt (walletAddress st)).

(** Running a handler to its end on the current state cells. *)
Definition run (env : Env) (p : Prog) (s : State) : State :=
  Async.run apply env p s.

(** The body of the connected view, the chain of conditionals
    [activeTab === 'profile' ? ... : loading ? ... :
     credentials.length === 0 ? ... : view3D ? ... : ...]. *)
Inductive View : Type :=
| ProfileView
| Spinner
| NoCredentialsFound
| Showcase3D
| CredentialGrid.

Definition mainView (st : State) : View :=
  match activeTab st with
  | profileTab => ProfileView
  | credentialsTab =>
      if loading st then Spinner
      else if List.length (credentials st) =? 0 then NoCredentialsFound
      else if view3D st then Showcase3D
      else CredentialGrid
  end.

(** [onClick] of the History button of a credential card:
    [dbCredentials.find(c => c.token_id === credential.tokenId)], and
    [setViewAuditCredential(dbCred.id)] if a record was found. *)
Definition onHistory (st : State) (credential : Credential.t) : Prog :=
  match
    find (fun c => strictEq (CredentialRecord.token_id c)
                     (Credential.tokenId credential))
      (dbCredentials st)
  with
  | Some dbCred => setViewAuditCredential (Some (CredentialRecord.id dbCred)) ;; Done
  | None => Done
  end.

(** [viewAuditCredential && ...]: the Credential History modal. *)
Definition auditModal (st : State) : bool :=
  truthy_opt (viewAuditCredential st).

End StudentWallet.

(** ** Sessions of the verification portal

    A session is a sequence of attempts made one after the other: the visitor
    types a token ID into the input ([onChange] calls [setTokenId]), the
    component renders, the visitor clicks Verify ([handleVerify()] of that
    render), and the handler runs to its end before the next attempt.
    This is what the Verify button allows, which is disabled while a lookup
    is loading; attempts that overlap are in [Page]. *)

Module Session.
Import VerificationPortal.

Record Attempt : Type := {
  typed : jsstring;      (* the text of the input when Verify is clicked *)
  replies : Env          (* what the services reply during the attempt *)
}.

Definition render (s : State) (a : Attempt) : State :=
  apply (setTokenId (typed a)) s.

Definition attemptTrace (s : State) (a : Attempt) : list Event :=
  trace (replies a) (handleVerify (render s a) None).

Definition attempt (s : State) (a : Attempt) : State :=
  replay apply (attemptTrace s a) (render s a).

Definition session (s : State) (hist : list Attempt) : State :=
  fold_left attempt hist s.

Fixpoint sessionTraces (s : State) (hist : list Attempt)
  : list (list Event) :=
  match hist with
  | [] => []
  | a :: rest => attemptTrace s a :: sessionTraces (attempt s a) rest
  end.

(** An attempt is blocked when it opens the pricing prompt. *)
Definition opensPricing (ev : Event) : bool :=
  match ev with EvSet (setShowPricing true) => true | _ => false end.

Definition blocked (tr : list Event) : bool := existsb opensPricing tr.

(** An attempt is verified when the service gave it a credential to show. *)
Definition showsCredential (ev : Event) : bool :=
  match ev with EvSet (setCredential (Some _)) => true | _ => false end.


(** An attempt counts when it updates the session counter. *)
Definition countsAttempt (ev : Event) : bool :=
  match ev with EvSet (setVerificationCount _) => true | _ => false end.

Definition counted (tr : list Event) : bool := existsb countsAttempt tr.

(** The events of an attempt of a connected visitor without subscription
    after the service has replied. *)
Definition lookupOutcome (r : option Credential.t + JsError) : list Event :=
  match r with
  | inl (Some c) =>
      [EvSet (setCredential (Some c));
       EvSet (setVerificationCount (fun prev => prev + 1));
       EvSet (setLoading false)]
  | inl None =>
      [EvSet (setError (Some (js "Credential not found or invalid token ID")));
       EvSet (setLoading false)]
  | inr err =>
      match message err with
      | inl m =>
          [EvSet (setError
                    (Some (or_else m (js "Failed to verify credential"))));
           EvSet (setLoading false)]
      | inr e => [EvSet (setLoading false); EvUncaught e]
      end
  end.

(** The events of an attempt up to the call of the service. *)
Definition lookupRequest (id : jsstring) : list Event :=
  [EvSet (setLoading true); EvSet (setError None); EvSet (setCredential None);
   EvSet (setSearched true); EvCall (verifyCredential id)].

(** The events of an attempt that the cap rejects. *)
Definition capRejection : list Event :=
  [EvSet (setError
            (Some (js "Verification limit reached. Please subscribe to continue.")));
   EvSet (setShowPricing true)].

End Session.

(** ** Overlapping runs of the verification portal

    The Verify button is disabled while [loading]; the [onKeyDown] of the
    input is not, so Enter starts [handleVerify] again while an earlier run
    waits for the service.  A run is therefore cut at its await: what it
    does when it is started, and what it does when the reply arrives, with
    whatever other handlers did in between. *)

Module Page.
Import VerificationPortal Session.

Definition request (tr : list Event) : list Event := until_await tr.

Definition resume (tr : list Event) : list Event := after_await tr.

(** The state cells after a run with trace [tr], when other handlers did
    [between] while it was waiting. *)
Definition overlapped (tr between : list Event) (cur : State) : State :=
  replay apply (resume tr)
    (replay apply between (replay apply (request tr) cur)).

(** An event that reports an error to the visitor. *)
Definition setsError (ev : Event) : bool :=
  match ev with EvSet (setError (Some _)) => true | _ => false end.

Definition callsService (ev : Event) : bool :=
  match ev with EvCall (verifyCredential _) => true | _ => false end.

(** A lookup that waits for its reply: who started it (the visitor, with
    Enter or the Verify button, or the mount effect for a [verify] query
    parameter) and what it does when the reply arrives. *)
Record Pending : Type := {
  byVisitor : bool;
  onReply : list Event
}.

Record Page : Type := {
  cells : State;
  pending : list Pending
}.

(** What happens on the page, one thing at a time: the visitor types into
    the input, the visitor starts [handleVerify()] (Enter, or the Verify
    button when it is enabled), or the lookup at position [n] of the
    waiting ones gets its reply.  The component has rendered between two
    steps, so that a handler the visitor starts closes over the current
    state cells; lookups are answered in any order. *)
Inductive Step : Type :=
| typeText (v : jsstring)
| pressEnter (replies : Env)
| settle (n : nat).

Definition removeNth {A : Type} (n : nat) (l : list A) : list A :=
  firstn n l ++ skipn (S n) l.

Definition start (p : Page) (visitor : bool) (tr : list Event) : Page :=
  {| cells := replay apply (request tr) (cells p);
     pending :=
       if existsb callsService tr
       then pending p ++ [{| byVisitor := visitor; onReply := resume tr |}]
       else pending p |}.

Definition step (p : Page) (st : Step) : Page :=
  match st with
  | typeText v =>
      {| cells := apply (setTokenId v) (cells p); pending := pending p |}
  | pressEnter replies =>
      start p true (trace replies (handleVerify (cells p) None))
  | settle n =>
      match nth_error (pending p) n with
      | Some r =>
          {| cells := replay apply (onReply r) (cells p);
             pending := removeNth n (pending p) |}
      | None => p
      end
  end.

Definition steps (p : Page) (l : list Step) : Page := fold_left step l p.

(** The page once the mount effect has run: the state cells hold [s0], and
    the verification of a non-blank [verify] query parameter, started from
    the first render, may still wait for its reply. *)
Definition mounted (s0 : State) (deepLink : option (jsstring * Env)) : Page :=
  match deepLink with
  | Some (v, replies) =>
      let tr := trace replies (handleVerify initialState (Some v)) in
      {| cells := s0;
         pending :=
           if existsb callsService tr
           then [{| byVisitor := false; onReply := resume tr |}]
           else [] |}
  | None => {| cells := s0; pending := [] |}
  end.







End Page.

(** ** Sample inputs, for runs on concrete values *)

Module Samples.

Definition diploma : Credential.t := {|
  Credential.tokenId := js "7";
  Credential.degree := js "BSc Computer Science";
  Credential.institution := js "Example University";
  Credential.issueDate := 1700000000%Z;
  Credential.student := js "0x1111111111111111111111111111111111111111";
  Credential.ipfsHash := js "QmExampleHash";
  Credential.revoked := false
|}.

Definition account : jsstring :=
  js "0x2222222222222222222222222222222222222222".

Definition rpcError : JsError := thrown (Some (js "network error")).

(** Services of the portal: [lookup] is what [verifyCredential] replies,
    [access] the [hasAccess] of [checkUserSubscription]. *)
Definition portalEnv (lookup : option Credential.t + JsError) (access : bool)
  : VerificationPortal.Env :=
  fun c =>
    match c with
    | VerificationPortal.verifyCredential _ => lookup
    | VerificationPortal.connectWallet => inl (Some account)
    | VerificationPortal.checkUserSubscription _ _ =>
        inl {| Subscription.hasAccess := access |}
    | VerificationPortal.eth_accounts => inl [account]
    end.

(** A visitor of the portal with a wallet connected and no subscription. *)
Definition connectedVisitor : VerificationPortal.State :=
  VerificationPortal.apply
    (VerificationPortal.setWalletAddress (Some account))
    VerificationPortal.initialState.

(** Services of the wallet view. *)
Definition walletEnv
  (wallet : option jsstring + JsError) (network : unit + JsError)
  (onChain : list Credential.t + JsError)
  (stored : list CredentialRecord.t + JsError)
  : StudentWallet.Env :=
  fun c =>
    match c with
    | StudentWallet.connectWallet => wallet
    | StudentWallet.switchToSepolia => network
    | StudentWallet.getStudentCredentials _ => onChain
    | StudentWallet.getCredentialsByStudent _ => stored
    | StudentWallet.eth_accounts => inl []
    end.

End Samples.

Arguments js : simpl never.

(** * Properties *)

(** ** Strings *)

Module JsFacts.

Lemma trimStart_whitespace (s : jsstring) :
  forallb isWhiteSpace s = true -> trimStart s = [].
Proof.
  induction s as [|c s IH]; simpl; [reflexivity|].
  intros H. apply andb_true_iff in H as [Hc Hs].
  rewrite Hc. exact (IH Hs).
Qed.

Lemma trim_whitespace (s : jsstring) :
  forallb isWhiteSpace s = true -> trim s = [].
Proof.
  intros H. unfold trim, trimEnd.
  rewrite (trimStart_whitespace s H). reflexivity.
Qed.

Lemma or_else_truthy (a b : jsstring) :
  a <> [] -> or_else (Some a) b = a.
Proof. destruct a; simpl; [congruence|reflexivity]. Qed.

End JsFacts.

(** ** Traces cut at an await *)

Module AsyncCut.

(** Cutting a trace at its first await loses nothing. *)
Lemma until_after_await {Act Call : Type} (l : list (Async.Event Act Call)) :
  until_await l ++ after_await l = l.
Proof.
  induction l as [|ev rest IH]; [reflexivity|].
  destruct ev; simpl; try rewrite IH; reflexivity.
Qed.

End AsyncCut.

(** ** handleVerify: its three exits *)

Module VerificationPortalFacts.
Import VerificationPortal Session.

(** The validation exit. *)
Lemma handleVerify_blank (st : State) (id : option jsstring) :
  trim (idToVerify st id) = [] ->
  handleVerify st id = (setError (Some (js "Please enter a token ID")) ;; Done).
Proof. unfold handleVerify. intros ->. reflexivity. Qed.

(** The cap exit. *)
Lemma handleVerify_capped (st : State) (id : option jsstring) :
  trim (idToVerify st id) <> [] ->
  capReached st = true ->
  handleVerify st id =
    (setError
       (Some (js "Verification limit reached. Please subscribe to continue.")) ;;
     setShowPricing true ;; Done).
Proof.
  unfold handleVerify. intros Hid Hcap.
  destruct (trim (idToVerify st id)); [congruence|].
  simpl. rewrite Hcap. reflexivity.
Qed.

(** The lookup: the four resets, the call, what the reply leads to, and the
    [finally] block. *)
Lemma handleVerify_lookup (env : Env) (st : State) (id : option jsstring) :
  trim (idToVerify st id) <> [] ->
  capReached st = false ->
  trace env (handleVerify st id) =
    lookupRequest (idToVerify st id) ++
    match env (verifyCredential (idToVerify st id)) with
    | inl (Some c) =>
        EvSet (setCredential (Some c)) ::
        (if truthy_opt (walletAddress st) && negb (hasAccess st)
         then [EvSet (setVerificationCount (fun prev => prev + 1))]
         else []) ++ [EvSet (setLoading false)]
    | r => lookupOutcome r
    end.
Proof.
  unfold handleVerify. intros Hid Hcap.
  destruct (trim (idToVerify st id)); [congruence|].
  simpl. rewrite Hcap. unfold trace. simpl.
  destruct (env (verifyCredential (idToVerify st id))) as [[c|]|[|msg]];
    simpl; try reflexivity.
  destruct (truthy_opt (walletAddress st) && negb (hasAccess st)); reflexivity.
Qed.

(** The three exits as one case analysis on a trace. *)
Lemma handleVerify_exits (env : Env) (st : State) (id : option jsstring) :
  let tr := trace env (handleVerify st id) in
  (trim (idToVerify st id) = [] /\
   tr = [EvSet (setError (Some (js "Please enter a token ID")))])
  \/ (trim (idToVerify st id) <> [] /\ capReached st = true /\
      tr = capRejection)
  \/ (trim (idToVerify st id) <> [] /\ capReached st = false /\
      exists rest,
        tr = lookupRequest (idToVerify st id) ++ rest /\
        blocked rest = false /\
        (forall x, ~ In (EvCall (verifyCredential x)) rest)).
Proof.
  intros tr. subst tr.
  destruct (trim (idToVerify st id)) as [|c t] eqn:Hid.
  - left. split; [reflexivity|].
    rewrite (handleVerify_blank st id Hid). reflexivity.
  - assert (Hne : trim (idToVerify st id) <> []) by (rewrite Hid; discriminate).
    destruct (capReached st) eqn:Hcap.
    + right; left. repeat split; try assumption; try discriminate.
      rewrite (handleVerify_capped st id Hne Hcap). reflexivity.
    + right; right. repeat split; try assumption; try discriminate.
      rewrite (handleVerify_lookup env st id Hne Hcap).
      eexists. split; [reflexivity|].
      destruct (env (verifyCredential (idToVerify st id))) as [[c0|]|[|msg]];
        [destruct (truthy_opt (walletAddress st) && negb (hasAccess st))| | |];
        (split; [reflexivity|]);
        intros x Hin; simpl in Hin;
        repeat (destruct Hin as [Hin|Hin]; [discriminate|]); exact Hin.
Qed.

(** Replaying two traces one after the other. *)
Lemma replay_app (l1 l2 : list Event) (s : State) :
  replay apply (l1 ++ l2) s = replay apply l2 (replay apply l1 s).
Proof.
  revert s. induction l1 as [|ev l1 IH]; intros s; [reflexivity|].
  destruct ev; simpl; apply IH.
Qed.

(** A lookup is cut after the call: the resets and the call run when it is
    started, the rest when the reply arrives. *)
Lemma handleVerify_cut_lookup (env : Env) (st : State) (id : option jsstring) :
  trim (idToVerify st id) <> [] ->
  capReached st = false ->
  Page.request (trace env (handleVerify st id)) =
    lookupRequest (idToVerify st id)
  /\ Page.resume (trace env (handleVerify st id)) =
       match env (verifyCredential (idToVerify st id)) with
       | inl (Some c) =>
           EvSet (setCredential (Some c)) ::
           (if truthy_opt (walletAddress st) && negb (hasAccess st)
            then [EvSet (setVerificationCount (fun prev => prev + 1))]
            else []) ++ [EvSet (setLoading false)]
       | r => lookupOutcome r
       end
  /\ existsb Page.callsService (trace env (handleVerify st id)) = true.
Proof.
  intros Hid Hcap. rewrite (handleVerify_lookup env st id Hid Hcap).
  repeat split.
Qed.

(** As long as no other handler stores a credential, none is there. *)
Lemma credential_stays_null (between : list Event) :
  forallb (fun ev => negb (showsCredential ev)) between = true ->
  forall s, credential s = None -> credential (replay apply between s) = None.
Proof.
  induction between as [|ev rest IH]; intros Hb s Hs; [exact Hs|].
  simpl in Hb. apply andb_true_iff in Hb as [Hev Hrest].
  destruct ev as [u| | |]; simpl; try (apply IH; assumption).
  apply IH; [exact Hrest|].
  destruct u as [| [c|] | | | | | | | |]; simpl; try exact Hs;
    [discriminate Hev|reflexivity].
Qed.

(** As long as no other handler reports an error, none is there. *)
Lemma error_stays_null (between : list Event) :
  forallb (fun ev => negb (Page.setsError ev)) between = true ->
  forall s, error s = None -> error (replay apply between s) = None.
Proof.
  induction between as [|ev rest IH]; intros Hb s Hs; [exact Hs|].
  simpl in Hb. apply andb_true_iff in Hb as [Hev Hrest].
  destruct ev as [u| | |]; simpl; try (apply IH; assumption).
  apply IH; [exact Hrest|].
  destruct u as [| | | [m|] | | | | | |]; simpl; try exact Hs;
    [discriminate Hev|reflexivity].
Qed.

(** A call of the service in a trace of [handleVerify] is the one of the
    lookup exit. *)
Lemma handleVerify_call_inv
  (env : Env) (st : State) (id : option jsstring) (x : jsstring) :
  In (EvCall (verifyCredential x)) (trace env (handleVerify st id)) ->
  x = idToVerify st id
  /\ trim (idToVerify st id) <> []
  /\ capReached st = false.
Proof.
  intros Hin.
  destruct (handleVerify_exits env st id)
    as [[_ Htr]|[[_ [_ Htr]]|[Hid [Hcap [rest [Htr [_ Hrest]]]]]]];
    rewrite Htr in Hin.
  - exfalso. simpl in Hin. destruct Hin as [Hin|[]]. discriminate Hin.
  - exfalso. simpl in Hin. destruct Hin as [Hin|[Hin|[]]]; discriminate Hin.
  - apply in_app_or in Hin. destruct Hin as [Hin|Hin].
    + simpl in Hin.
      repeat (destruct Hin as [Hin|Hin]; [try discriminate Hin|]);
        [|destruct Hin].
      injection Hin as <-. auto.
    + exfalso. exact (Hrest x Hin).
Qed.

End VerificationPortalFacts.

(** ** VerificationPortal: validation, lookup result, cap rejection *)

Module VerificationPortalSpec.
Import VerificationPortal Session VerificationPortalFacts.

(** C2: whenever the token ID to verify ([id || tokenId]) is empty,
    [handleVerify] does nothing but set the error to "Please enter a token
    ID"; in particular it never calls [verifyCredential]. *)
Theorem empty_token_id_rejected
  (env : Env) (st cur : State) (id : option jsstring) :
  idToVerify st id = [] ->
  trace env (handleVerify st id) =
    [EvSet (setError (Some (js "Please enter a token ID")))]
  /\ error (run env (handleVerify st id) cur) =
       Some (js "Please enter a token ID")
  /\ forall x, ~ In (EvCall (verifyCredential x)) (trace env (handleVerify st id)).
Proof.
  intros Hid.
  assert (Hblank : trim (idToVerify st id) = []) by (rewrite Hid; reflexivity).
  unfold run, Async.run. rewrite (handleVerify_blank st id Hblank).
  repeat split.
  intros x [Hin|[]]. discriminate Hin.
Qed.

Lemma empty_token_id_rejected_witness :
  idToVerify initialState None = []
  /\ trace (Samples.portalEnv (inl None) false) (handleVerify initialState None) =
       [EvSet (setError (Some (js "Please enter a token ID")))].
Proof.
  split; [reflexivity|].
  apply (empty_token_id_rejected (Samples.portalEnv (inl None) false)
           initialState initialState None).
  reflexivity.
Defined.

(** C9: a token ID to verify that consists of whitespace only (the code
    units that [trim] strips) is treated as the empty one: the error is set
    to "Please enter a token ID" and [verifyCredential] is never called. *)
Theorem whitespace_token_id_rejected
  (env : Env) (st cur : State) (id : option jsstring) :
  forallb isWhiteSpace (idToVerify st id) = true ->
  trace env (handleVerify st id) =
    [EvSet (setError (Some (js "Please enter a token ID")))]
  /\ error (run env (handleVerify st id) cur) =
       Some (js "Please enter a token ID")
  /\ forall x, ~ In (EvCall (verifyCredential x)) (trace env (handleVerify st id)).
Proof.
  intros Hws.
  pose proof (JsFacts.trim_whitespace _ Hws) as Hblank.
  unfold run, Async.run. rewrite (handleVerify_blank st id Hblank).
  repeat split.
  intros x [Hin|[]]. discriminate Hin.
Qed.

Lemma whitespace_token_id_rejected_witness :
  forallb isWhiteSpace
    (idToVerify Samples.connectedVisitor (Some [0x20; 0x9; 0xA0; 0x2003]%N)) = true
  /\ error (run (Samples.portalEnv (inl (Some Samples.diploma)) false)
              (handleVerify Samples.connectedVisitor
                 (Some [0x20; 0x9; 0xA0; 0x2003]%N))
              Samples.connectedVisitor) =
       Some (js "Please enter a token ID").
Proof.
  split; [reflexivity|].
  apply (whitespace_token_id_rejected
           (Samples.portalEnv (inl (Some Samples.diploma)) false)
           Samples.connectedVisitor Samples.connectedVisitor
           (Some [0x20; 0x9; 0xA0; 0x2003]%N)).
  reflexivity.
Defined.

(** C3, as the code has it: whenever [handleVerify] calls the verification
    service and the service returns null, the run, when the reply arrives,
    sets the error to "Credential not found or invalid token ID" and stores
    no credential.  The credential cell is null and the result panel
    ([searched && credential]) is not rendered then, unless another handler
    stored a credential while this run was waiting for the service: the
    run cleared the credential before the call and does not touch it
    afterwards. *)
Theorem null_result_reports_not_found
  (env : Env) (st cur : State) (id : option jsstring) (x : jsstring)
  (between : list Event) :
  In (EvCall (verifyCredential x)) (trace env (handleVerify st id)) ->
  env (verifyCredential x) = inl None ->
  let tr := trace env (handleVerify st id) in
  let waiting := replay apply between (replay apply (Page.request tr) cur) in
  let s' := Page.overlapped tr between cur in
  Page.resume tr =
    [EvSet (setError (Some (js "Credential not found or invalid token ID")));
     EvSet (setLoading false)]
  /\ error s' = Some (js "Credential not found or invalid token ID")
  /\ credential s' = credential waiting
  /\ (forallb (fun ev => negb (showsCredential ev)) between = true ->
      credential s' = None /\ resultPanel s' = false)
  /\ (between = [] ->
      s' = run env (handleVerify st id) cur
      /\ credential s' = None /\ resultPanel s' = false).
Proof.
  intros Hin Hnull tr waiting s'.
  destruct (handleVerify_call_inv env st id x Hin) as [-> [Hid Hcap]].
  destruct (handleVerify_cut_lookup env st id Hid Hcap) as [Hreq [Hres _]].
  rewrite Hnull in Hres. simpl in Hres.
  assert (Hcred : credential s' = credential waiting).
  { subst s' waiting tr. unfold Page.overlapped. rewrite Hres. reflexivity. }
  assert (Hquiet : forallb (fun ev => negb (showsCredential ev)) between = true ->
                   credential s' = None /\ resultPanel s' = false).
  { intros Hb.
    assert (Hnone : credential s' = None).
    { rewrite Hcred. subst waiting tr.
      apply (credential_stays_null between Hb). rewrite Hreq. reflexivity. }
    split; [exact Hnone|]. unfold resultPanel. rewrite Hnone.
    apply andb_false_r. }
  split; [exact Hres|]. split.
  { subst s' tr. unfold Page.overlapped. rewrite Hres. reflexivity. }
  split; [exact Hcred|]. split; [exact Hquiet|].
  intros ->. split; [|apply Hquiet; reflexivity].
  subst s' tr. unfold Page.overlapped, run, Async.run.
  rewrite <- (AsyncCut.until_after_await (trace env (handleVerify st id)))
    at 3.
  rewrite replay_app. reflexivity.
Qed.

Lemma null_result_reports_not_found_witness :
  let env := Samples.portalEnv (inl None) false in
  let tr := trace env (handleVerify Samples.connectedVisitor (Some (js "404"))) in
  In (EvCall (verifyCredential (js "404"))) tr
  /\ env (verifyCredential (js "404")) = inl None
  /\ error (Page.overlapped tr [EvSet (setTokenId (js "7"))]
              Samples.connectedVisitor) =
       Some (js "Credential not found or invalid token ID")
  /\ resultPanel (Page.overlapped tr [EvSet (setTokenId (js "7"))]
                    Samples.connectedVisitor) = false.
Proof.
  intros env tr.
  assert (Hin : In (EvCall (verifyCredential (js "404"))) tr)
    by (vm_compute; do 4 right; left; reflexivity).
  split; [exact Hin|]. split; [reflexivity|].
  pose proof (null_result_reports_not_found env Samples.connectedVisitor
                Samples.connectedVisitor (Some (js "404")) (js "404")
                [EvSet (setTokenId (js "7"))] Hin eq_refl) as H.
  split.
  - exact (proj1 (proj2 H)).
  - exact (proj2 (proj1 (proj2 (proj2 (proj2 H))) eq_refl)).
Defined.

(** C3 as it is stated fails: Enter starts a second lookup while the first
    one waits; the second is given a credential, then the first gets null.
    The run that received null ends with the credential stored and the
    result panel rendered, next to its "not found" error. *)
Lemma null_result_beside_overlapping_credential :
  let missing := Samples.portalEnv (inl None) false in
  let found := Samples.portalEnv (inl (Some Samples.diploma)) false in
  let p :=
    Page.steps (Page.mounted initialState None)
      [Page.typeText (js "404"); Page.pressEnter missing;
       Page.typeText (js "7"); Page.pressEnter found] in
  let after := Page.steps p [Page.settle 1; Page.settle 0] in
  missing (verifyCredential (js "404")) = inl None
  /\ map Page.onReply (Page.pending p) =
       [[EvSet (setError (Some (js "Credential not found or invalid token ID")));
         EvSet (setLoading false)];
        [EvSet (setCredential (Some Samples.diploma));
         EvSet (setLoading false)]]
  /\ Page.pending after = []
  /\ error (Page.cells after) =
       Some (js "Credential not found or invalid token ID")
  /\ credential (Page.cells after) = Some Samples.diploma
  /\ resultPanel (Page.cells after) = true.
Proof. repeat split. Qed.

(** C10: an attempt that the free-tier cap rejects changes the error message
    and the pricing-prompt flag only: the displayed credential, the searched
    flag, the loading flag, the token-ID input and the verification counter
    keep their values, so a result panel that was rendered stays rendered. *)
Theorem cap_rejection_keeps_result
  (env : Env) (st cur : State) (id : option jsstring) :
  blocked (trace env (handleVerify st id)) = true ->
  let s' := run env (handleVerify st id) cur in
  trace env (handleVerify st id) = capRejection
  /\ credential s' = credential cur
  /\ searched s' = searched cur
  /\ loading s' = loading cur
  /\ tokenId s' = tokenId cur
  /\ verificationCount s' = verificationCount cur
  /\ resultPanel s' = resultPanel cur
  /\ walletAddress s' = walletAddress cur
  /\ hasAccess s' = hasAccess cur
  /\ checkingAccess s' = checkingAccess cur
  /\ error s' =
       Some (js "Verification limit reached. Please subscribe to continue.")
  /\ showPricing s' = true.
Proof.
  intros Hblocked s'. subst s'. unfold run, Async.run.
  destruct (handleVerify_exits env st id) as [[_ Htr]|[[_ [_ Htr]]|Hlookup]].
  - rewrite Htr in Hblocked. discriminate Hblocked.
  - rewrite Htr. repeat split.
  - destruct Hlookup as [_ [_ [rest [Htr [Hrest _]]]]].
    rewrite Htr in Hblocked. unfold blocked in Hblocked, Hrest.
    rewrite existsb_app in Hblocked. rewrite Hrest in Hblocked.
    discriminate Hblocked.
Qed.

Lemma cap_rejection_keeps_result_witness :
  let env := Samples.portalEnv (inl (Some Samples.diploma)) false in
  let st := apply (setVerificationCount (fun _ => 3)) Samples.connectedVisitor in
  let shown :=
    apply (setSearched true) (apply (setCredential (Some Samples.diploma)) st) in
  blocked (trace env (handleVerify shown (Some (js "8")))) = true
  /\ resultPanel shown = true
  /\ resultPanel (run env (handleVerify shown (Some (js "8"))) shown) =
       resultPanel shown.
Proof.
  intros env st shown.
  split; [reflexivity|]. split; [reflexivity|].
  apply (cap_rejection_keeps_result env shown shown (Some (js "8"))).
  reflexivity.
Defined.

(** C8: when the page loads with a non-empty [verify] query parameter, the
    mount effect sets the token-ID input to that value and calls
    [handleVerify] with that value and nothing else ([id || tokenId] is the
    parameter): what runs at once is [setTokenId], then [handleVerify] of the
    parameter up to its await, then the wallet check up to its await.  The
    input holds the parameter when everything has settled, and when the
    parameter is not blank the verification service is called inside the
    effect, with that very value and no other. *)
Theorem verify_param_triggers_verification
  (env : Env) (w : Window) (v : jsstring) (cur : State) :
  verifyParam w = Some v ->
  v <> [] ->
  let r := exec env (onMount w) in
  tokenId (run env (onMount w) cur) = v
  /\ idToVerify initialState (Some v) = v
  /\ now r =
       EvSet (setTokenId v) ::
       until_await (now (exec env (handleVerify initialState (Some v)))) ++
       until_await (now (exec env (checkWalletConnection w)))
  /\ (trim v <> [] ->
      In (EvCall (verifyCredential v)) (now r)
      /\ forall x, In (EvCall (verifyCredential x)) (trace env (onMount w)) ->
                   x = v).
Proof.
  intros Hparam Hv r. subst r.
  assert (Hid : idToVerify initialState (Some v) = v)
    by (apply JsFacts.or_else_truthy; exact Hv).
  assert (Htruthy : truthy v = true) by (destruct v; [congruence|reflexivity]).
  unfold run, Async.run, trace, onMount.
  rewrite Hparam, Htruthy.
  cbn [exec now later]. rewrite !app_nil_r.
  split; [|split; [exact Hid|split; [reflexivity|]]].
  - unfold handleVerify, checkWalletConnection. cbv zeta. rewrite Hid.
    destruct (trim v) as [|c t]; simpl;
      [|destruct (env (verifyCredential v)) as [[c0|]|[|msg]]; simpl];
      (destruct (ethereum w); simpl;
       [destruct (env eth_accounts) as [[|a l]|err]; simpl|]);
      reflexivity.
  - intros Hne.
    unfold handleVerify, checkWalletConnection. cbv zeta. rewrite Hid.
    destruct (trim v) as [|c t]; [congruence|]. simpl.
    split.
    + do 5 right. left. reflexivity.
    + intros x Hin.
      assert (Hcall : EvCall (Act := Act) (verifyCredential v) =
                      EvCall (verifyCredential x) -> x = v)
        by (intros Heq; injection Heq as <-; reflexivity).
      destruct (env (verifyCredential v)) as [[c0|]|[|msg]]; simpl in Hin;
        (destruct (ethereum w); simpl in Hin;
         [destruct (env eth_accounts) as [[|a l]|err]; simpl in Hin|]);
        repeat (destruct Hin as [Hin|Hin];
                [first [discriminate Hin | exact (Hcall Hin)]|]);
        destruct Hin.
Qed.

Lemma verify_param_triggers_verification_witness :
  let w := {| verifyParam := Some (js "42"); ethereum := true |} in
  let env := Samples.portalEnv (inl (Some Samples.diploma)) false in
  verifyParam w = Some (js "42")
  /\ js "42" <> []
  /\ tokenId (run env (onMount w) initialState) = js "42".
Proof.
  intros w env.
  split; [reflexivity|]. split; [discriminate|].
  assert (Hv : js "42" <> []) by discriminate.
  exact (proj1 (verify_param_triggers_verification env w (js "42")
                  initialState eq_refl Hv)).
Defined.

End VerificationPortalSpec.

(** ** The free-tier cap over a session *)

Module SessionFacts.
Import VerificationPortal Session VerificationPortalFacts.

Lemma idToVerify_render (s : State) (a : Attempt) :
  idToVerify (render s a) None = typed a.
Proof. reflexivity. Qed.

Lemma capReached_render (s : State) (a : Attempt) :
  capReached (render s a) = capReached s.
Proof. reflexivity. Qed.

(** One attempt of a visitor the cap does not apply to (no wallet, or a
    subscription). *)
Lemma uncapped_attempt (s : State) (a : Attempt) :
  truthy_opt (walletAddress s) && negb (hasAccess s) = false ->
  blocked (attemptTrace s a) = false
  /\ counted (attemptTrace s a) = false
  /\ verificationCount (attempt s a) = verificationCount s
  /\ walletAddress (attempt s a) = walletAddress s
  /\ hasAccess (attempt s a) = hasAccess s.
Proof.
  intros Hfree. unfold attempt, attemptTrace.
  destruct (trim (typed a)) as [|c t] eqn:Hid.
  - rewrite handleVerify_blank by exact Hid. repeat split.
  - assert (Hcap : capReached (render s a) = false)
      by (rewrite capReached_render; unfold capReached; rewrite Hfree; reflexivity).
    rewrite handleVerify_lookup;
      [| rewrite idToVerify_render, Hid; discriminate | exact Hcap].
    replace (truthy_opt (walletAddress (render s a)) && negb (hasAccess (render s a)))
      with false by (simpl; rewrite Hfree; reflexivity).
    destruct (replies a (verifyCredential (idToVerify (render s a) None)))
      as [[c0|]|[|msg]]; repeat split.
Qed.

Lemma uncapped_session (hist : list Attempt) :
  forall s,
    truthy_opt (walletAddress s) && negb (hasAccess s) = false ->
    Forall (fun tr => blocked tr = false /\ counted tr = false)
      (sessionTraces s hist)
    /\ verificationCount (session s hist) = verificationCount s
    /\ walletAddress (session s hist) = walletAddress s
    /\ hasAccess (session s hist) = hasAccess s.
Proof.
  induction hist as [|a rest IH]; intros s Hfree.
  - simpl. repeat split. constructor.
  - destruct (uncapped_attempt s a Hfree) as [Hb [Hc [Hn [Hw Ha]]]].
    assert (Hfree' : truthy_opt (walletAddress (attempt s a))
                     && negb (hasAccess (attempt s a)) = false)
      by (rewrite Hw, Ha; exact Hfree).
    destruct (IH (attempt s a) Hfree') as [IHf [IHn [IHw IHa]]].
    change (session s (a :: rest)) with (session (attempt s a) rest).
    simpl sessionTraces.
    repeat split; [constructor; [split; assumption|exact IHf]| | |]; congruence.
Qed.

End SessionFacts.

Module PageFacts.
Import VerificationPortal Session VerificationPortalFacts SessionFacts.
Import Page.






End PageFacts.

Module FreeTierCap.
Import VerificationPortal Session VerificationPortalFacts SessionFacts.




(** C4: for a visitor with no wallet address connected, no attempt is
    blocked by the free-tier cap, whatever the verification counter holds
    and however many attempts the session has seen: [handleVerify] never
    opens the pricing prompt, it calls the service whenever the token ID is
    not blank, and the limit banner is not rendered. *)
Theorem unconnected_never_capped (st : State) :
  walletAddress st = None ->
  (forall (env : Env) (id : option jsstring),
      blocked (trace env (handleVerify st id)) = false
      /\ (trim (idToVerify st id) <> [] ->
          exists rest,
            trace env (handleVerify st id) =
              lookupRequest (idToVerify st id) ++ rest))
  /\ (forall hist : list Attempt,
         Forall (fun tr => blocked tr = false) (sessionTraces st hist)
         /\ walletAddress (session st hist) = None
         /\ limitBanner (session st hist) = false).
Proof.
  intros Hw.
  assert (Hcap : capReached st = false)
    by (unfold capReached; rewrite Hw; reflexivity).
  split.
  - intros env id.
    destruct (handleVerify_exits env st id)
      as [[Hid Htr]|[[_ [Hcap' _]]|[Hid [_ [rest [Htr [Hrest _]]]]]]].
    + rewrite Htr. split; [reflexivity|]. intros Hne. contradiction.
    + congruence.
    + split.
      * rewrite Htr. unfold blocked in *. rewrite existsb_app, Hrest. reflexivity.
      * intros _. exists rest. exact Htr.
  - intros hist.
    assert (Hfree : truthy_opt (walletAddress st) && negb (hasAccess st) = false)
      by (rewrite Hw; reflexivity).
    destruct (uncapped_session hist st Hfree) as [Hf [_ [Hw' _]]].
    split; [|split].
    + eapply Forall_impl; [|exact Hf]. intros tr [Hb _]. exact Hb.
    + congruence.
    + unfold limitBanner, capReached. rewrite Hw', Hw. reflexivity.
Qed.

Lemma unconnected_never_capped_witness :
  let st := apply (setVerificationCount (fun _ => 10)) initialState in
  let env := Samples.portalEnv (inl (Some Samples.diploma)) false in
  walletAddress st = None
  /\ verificationCount st = 10
  /\ blocked (trace env (handleVerify st (Some (js "7")))) = false.
Proof.
  intros st env.
  split; [reflexivity|]. split; [reflexivity|].
  exact (proj1 (proj1 (unconnected_never_capped st eq_refl) env (Some (js "7")))).
Defined.



End FreeTierCap.

(** ** StudentWallet: failures while connecting and loading *)

Module StudentWalletSpec.
Import StudentWallet.

Ltac find_event :=
  simpl; repeat (first [left; reflexivity | right]).

Ltac no_such_event H :=
  simpl in H; repeat (destruct H as [H|H]; [discriminate H|]); exact H.

(** C7, as the code has it: the on-chain fetch and the backing-store fetch
    are sequential awaits, and a failure thrown by either aborts the rest of
    the load and is only logged.  When the on-chain fetch fails, the second
    fetch is not made and neither list is modified.  When the backing-store
    fetch fails, the credentials list has already been replaced by the
    on-chain result, and only the backing-store records keep their value.
    The loading flag ends false either way. *)
Theorem loadCredentials_failure
  (env : Env) (address : jsstring) (cur : State) :
  let tr := trace env (loadCredentials address) in
  let s' := run env (loadCredentials address) cur in
  (forall e,
      env (getStudentCredentials address) = inr e ->
      tr = [EvSet (setLoading true);
            EvCall (getStudentCredentials address);
            EvLog (js "Error loading credentials:") e;
            EvSet (setLoading false)]
      /\ credentials s' = credentials cur
      /\ dbCredentials s' = dbCredentials cur
      /\ loading s' = false)
  /\ (forall creds e,
         env (getStudentCredentials address) = inl creds ->
         env (getCredentialsByStudent address) = inr e ->
         tr = [EvSet (setLoading true);
               EvCall (getStudentCredentials address);
               EvSet (setCredentials creds);
               EvCall (getCredentialsByStudent address);
               EvLog (js "Error loading credentials:") e;
               EvSet (setLoading false)]
         /\ credentials s' = creds
         /\ dbCredentials s' = dbCredentials cur
         /\ loading s' = false).
Proof.
  intros tr s'. subst tr s'.
  unfold run, Async.run, trace, loadCredentials. simpl.
  split.
  - intros e He. rewrite He. simpl. repeat split.
  - intros creds e Hc He. rewrite Hc. simpl. rewrite He. simpl. repeat split.
Qed.

Lemma loadCredentials_failure_witness :
  let env :=
    Samples.walletEnv (inl (Some Samples.account)) (inl tt)
      (inl [Samples.diploma]) (inr Samples.rpcError) in
  env (getStudentCredentials Samples.account) = inl [Samples.diploma]
  /\ env (getCredentialsByStudent Samples.account) = inr Samples.rpcError
  /\ dbCredentials (run env (loadCredentials Samples.account) initialState) =
       dbCredentials initialState.
Proof.
  intros env.
  split; [reflexivity|]. split; [reflexivity|].
  exact (proj1 (proj2 (proj2
           (proj2 (loadCredentials_failure env Samples.account initialState)
              [Samples.diploma] Samples.rpcError eq_refl eq_refl)))).
Defined.

(** C7 as it is stated fails: when the on-chain fetch succeeds and the
    backing-store fetch throws, the credentials list has been modified. *)
Lemma backing_store_failure_keeps_new_credentials :
  let env :=
    Samples.walletEnv (inl (Some Samples.account)) (inl tt)
      (inl [Samples.diploma]) (inr Samples.rpcError) in
  let s' := run env (loadCredentials Samples.account) initialState in
  env (getCredentialsByStudent Samples.account) = inr Samples.rpcError
  /\ In (EvLog (js "Error loading credentials:") Samples.rpcError)
        (trace env (loadCredentials Samples.account))
  /\ credentials initialState = []
  /\ credentials s' = [Samples.diploma]
  /\ credentials s' <> credentials initialState.
Proof.
  intros env s'.
  split; [reflexivity|]. split; [vm_compute; do 4 right; left; reflexivity|].
  split; [reflexivity|]. split; [reflexivity|]. discriminate.
Qed.

(** C6, as the code has it: whatever step of [handleConnectWallet] throws,
    nothing escapes the handler, the failure is logged and the loading flag
    ends false.  The wallet address is left as it was, so that the connect
    screen stays, only when the wallet authorization itself throws.  When
    the network switch or the loading of the credentials throws, the wallet
    address has already been set to the authorized account and stays set:
    the connect screen is not shown. *)
Theorem connect_failure_caught (env : Env) (cur : State) :
  let tr := trace env handleConnectWallet in
  let s' := run env handleConnectWallet cur in
  (forall e, ~ In (EvUncaught e) tr)
  /\ loading s' = false
  /\ (forall e,
         env connectWallet = inr e ->
         In (EvLog (js "Error connecting wallet:") e) tr
         /\ walletAddress s' = walletAddress cur
         /\ connectScreen s' = connectScreen cur)
  /\ (forall a e,
         env connectWallet = inl (Some a) ->
         truthy a = true ->
         env switchToSepolia = inr e ->
         In (EvLog (js "Error connecting wallet:") e) tr
         /\ (forall x, ~ In (EvCall (getStudentCredentials x)) tr)
         /\ walletAddress s' = Some a
         /\ connectScreen s' = false)
  /\ (forall a e,
         env connectWallet = inl (Some a) ->
         truthy a = true ->
         env switchToSepolia = inl tt ->
         env (getStudentCredentials a) = inr e
         \/ (exists creds,
                env (getStudentCredentials a) = inl creds
                /\ env (getCredentialsByStudent a) = inr e) ->
         In (EvLog (js "Error loading credentials:") e) tr
         /\ walletAddress s' = Some a
         /\ connectScreen s' = false).
Proof.
  intros tr s'. subst tr s'.
  unfold run, Async.run, trace, handleConnectWallet. cbn -[js].
  destruct (env connectWallet) as [[a|]|e0] eqn:Hconnect; cbn -[js];
    [destruct (truthy a) eqn:Ha; cbn -[js];
     [destruct (env switchToSepolia) as [[]|e1] eqn:Hswitch; cbn -[js];
      [destruct (env (getStudentCredentials a)) as [creds|e2] eqn:Hchain;
       cbn -[js];
       [destruct (env (getCredentialsByStudent a)) as [recs|e3] eqn:Hstore;
        cbn -[js]|]|]|]| |].
  all: split; [intros e Hin; no_such_event Hin|].
  all: split; [reflexivity|].
  all: split; [|split].
  (* the wallet authorization throws *)
  1, 4, 7, 10, 13, 16, 19:
    intros e He;
    first [discriminate He
          | injection He as <-; split; [find_event|split; reflexivity]].
  (* the network switch throws *)
  1, 3, 5, 7, 9, 11, 13:
    intros a0 e H1 H2 H3;
    first [discriminate H1 | discriminate H3
          | injection H1 as <-;
            first [rewrite Ha in H2; discriminate H2
                  | injection H3 as <-;
                    split; [find_event|];
                    split; [intros x Hin; no_such_event Hin|];
                    split; [reflexivity|];
                    unfold connectScreen; simpl; rewrite Ha; reflexivity]].
  (* loading the credentials throws *)
  all: intros a0 e H1 H2 H3 H4;
    first [discriminate H1 | discriminate H3
          | injection H1 as <-;
            first [rewrite Ha in H2; discriminate H2
                  | destruct H4 as [H4|[creds0 [H4 H5]]];
                    rewrite ?Hchain in *; rewrite ?Hstore in *;
                    first [discriminate H4 | discriminate H5
                          | try (injection H4 as <-); try (injection H5 as <-);
                            split; [find_event|];
                            split; [reflexivity|];
                            unfold connectScreen; simpl; rewrite Ha;
                            reflexivity]]].
Qed.

Lemma connect_failure_caught_witness :
  let env :=
    Samples.walletEnv (inl (Some Samples.account)) (inr Samples.rpcError)
      (inl [Samples.diploma]) (inl []) in
  env connectWallet = inl (Some Samples.account)
  /\ truthy Samples.account = true
  /\ env switchToSepolia = inr Samples.rpcError
  /\ loading (run env handleConnectWallet initialState) = false
  /\ walletAddress (run env handleConnectWallet initialState) =
       Some Samples.account.
Proof.
  intros env.
  split; [reflexivity|]. split; [reflexivity|]. split; [reflexivity|].
  split.
  - exact (proj1 (proj2 (connect_failure_caught env initialState))).
  - exact (proj1 (proj2 (proj2
             (proj1 (proj2 (proj2 (proj2
                (connect_failure_caught env initialState))))
                Samples.account Samples.rpcError eq_refl eq_refl eq_refl)))).
Defined.

(** C6 as it is stated fails: when the network switch throws, the failure
    is caught and logged, but the wallet address has been set and the
    connect screen is no longer shown. *)
Lemma network_switch_failure_leaves_wallet_connected :
  let env :=
    Samples.walletEnv (inl (Some Samples.account)) (inr Samples.rpcError)
      (inl [Samples.diploma]) (inl []) in
  let s' := run env handleConnectWallet initialState in
  env switchToSepolia = inr Samples.rpcError
  /\ connectScreen initialState = true
  /\ trace env handleConnectWallet =
       [EvSet (setLoading true); EvCall connectWallet;
        EvSet (setWalletAddress (Some Samples.account));
        EvCall switchToSepolia;
        EvLog (js "Error connecting wallet:") Samples.rpcError;
        EvSet (setLoading false)]
  /\ walletAddress s' = Some Samples.account
  /\ walletAddress s' <> None
  /\ connectScreen s' = false.
Proof.
  intros env s'. repeat split. discriminate.
Qed.

(** C6 as it is stated fails for the loading of the credentials too: the
    failure is logged by [loadCredentials] and the wallet stays connected. *)
Lemma load_failure_leaves_wallet_connected :
  let env :=
    Samples.walletEnv (inl (Some Samples.account)) (inl tt)
      (inr Samples.rpcError) (inl []) in
  let s' := run env handleConnectWallet initialState in
  trace env handleConnectWallet =
    [EvSet (setLoading true); EvCall connectWallet;
     EvSet (setWalletAddress (Some Samples.account));
     EvCall switchToSepolia;
     EvSet (setLoading true);
     EvCall (getStudentCredentials Samples.account);
     EvSet (setLoading false);
     EvLog (js "Error loading credentials:") Samples.rpcError;
     EvSet (setLoading false)]
  /\ walletAddress s' = Some Samples.account
  /\ connectScreen s' = false.
Proof.
  intros env s'. repeat split.
Qed.

End StudentWalletSpec.

(** ** Further properties: strings *)

Module SliceFacts.

Lemma slice_prefix (s : jsstring) (n : nat) :
  slice s 0 (Some (Z.of_nat n)) = firstn n s.
Proof.
  unfold slice. cbv zeta.
  replace (0 <? 0)%Z with false by reflexivity.
  replace (Z.of_nat n <? 0)%Z with false by (symmetry; apply Z.ltb_ge; lia).
  replace (Z.to_nat (Z.min 0 (Z.of_nat (List.length s)))) with 0 by lia.
  simpl skipn.
  destruct (Nat.le_gt_cases n (List.length s)) as [Hle|Hgt].
  - f_equal. lia.
  - replace (Z.to_nat (Z.min (Z.of_nat n) (Z.of_nat (List.length s))
                       - Z.min 0 (Z.of_nat (List.length s))))
      with (List.length s) by lia.
    rewrite firstn_all. symmetry. apply firstn_all2. lia.
Qed.

Lemma slice_suffix (s : jsstring) (n : nat) :
  0 < n ->
  slice s (- Z.of_nat n) None = skipn (List.length s - n) s.
Proof.
  intros Hn. unfold slice. cbv zeta.
  replace (- Z.of_nat n <? 0)%Z with true by (symmetry; apply Z.ltb_lt; lia).
  replace (Z.to_nat (Z.max (Z.of_nat (List.length s) + - Z.of_nat n) 0))
    with (List.length s - n) by lia.
  apply firstn_all2. rewrite length_skipn. lia.
Qed.

Lemma or_else_fallback (a : option jsstring) (b : jsstring) :
  truthy b = true -> truthy (or_else a b) = true.
Proof.
  intros Hb. destruct a as [[|c s]|]; simpl; try exact Hb; reflexivity.
Qed.

Lemma strictEq_spec (a b : jsstring) : strictEq a b = true <-> a = b.
Proof.
  unfold strictEq. destruct (list_eq_dec N.eq_dec a b); split;
    intros H; congruence.
Qed.

End SliceFacts.

(** ** Further properties: the verification portal *)

Module VerificationPortalMore.
Import VerificationPortal Session VerificationPortalFacts SessionFacts.

Ltac pick_event := simpl; repeat (first [left; reflexivity | right]).

Ltac absurd_event H :=
  simpl in H; repeat (destruct H as [H|H]; [discriminate H|]); exact H.

Lemma shortenAddress_shape (address : jsstring) :
  shortenAddress address =
    firstn 6 address ++ js "..." ++ skipn (List.length address - 4) address.
Proof.
  unfold shortenAddress.
  change 6%Z with (Z.of_nat 6). change (-4)%Z with (- Z.of_nat 4)%Z.
  rewrite SliceFacts.slice_prefix, SliceFacts.slice_suffix by lia.
  reflexivity.
Qed.

(** X1: [shortenAddress] keeps the first six and the last four code units
    around three dots; the result has at most 13 code units and is shorter
    than the address exactly when the address has more than 13. *)
Theorem shortenAddress_keeps_ends (address : jsstring) :
  shortenAddress address =
    firstn 6 address ++ js "..." ++ skipn (List.length address - 4) address
  /\ List.length (shortenAddress address) =
       Nat.min 6 (List.length address) + 3 + Nat.min 4 (List.length address)
  /\ List.length (shortenAddress address) <= 13
  /\ (List.length (shortenAddress address) < List.length address <->
      13 < List.length address).
Proof.
  assert (Hlen : List.length (shortenAddress address) =
                 Nat.min 6 (List.length address) + 3
                 + Nat.min 4 (List.length address)).
  { rewrite shortenAddress_shape.
    rewrite !length_app, length_firstn, length_skipn.
    change (List.length (js "...")) with 3. lia. }
  split; [apply shortenAddress_shape|].
  split; [exact Hlen|].
  rewrite Hlen. split; lia.
Qed.

(** X2: an address of at most four code units is not shortened: it is shown
    in full on both sides of the dots. *)
Theorem shortenAddress_short_address (address : jsstring) :
  List.length address <= 4 ->
  shortenAddress address = address ++ js "..." ++ address.
Proof.
  intros Hlen. rewrite shortenAddress_shape.
  rewrite firstn_all2 by lia.
  replace (List.length address - 4) with 0 by lia.
  reflexivity.
Qed.

Lemma shortenAddress_short_address_witness :
  List.length (js "0xab") <= 4
  /\ shortenAddress (js "0xab") = js "0xab...0xab".
Proof.
  split; [vm_compute; lia|].
  apply (shortenAddress_short_address (js "0xab")).
  vm_compute. lia.
Defined.

Lemma shortenAddress_keeps_ends_witness :
  shortenAddress Samples.account = js "0x2222...2222"
  /\ (List.length (shortenAddress Samples.account)
        < List.length Samples.account <->
      13 < List.length Samples.account).
Proof.
  split; [reflexivity|].
  exact (proj2 (proj2 (proj2 (shortenAddress_keeps_ends Samples.account)))).
Defined.

(** X3: when the verification service returns a credential, the run, when
    the reply arrives, stores the credential, clears the loading flag and
    adds one to the session counter for a connected visitor without
    subscription (and leaves the counter alone for everybody else).  It
    touches neither the error nor the searched flag: the result panel is
    rendered as the searched flag has it, and the error the run cleared
    before the call is still cleared unless another handler reported one
    while the run was waiting. *)
Theorem found_credential_is_shown
  (env : Env) (st cur : State) (id : option jsstring) (c : Credential.t)
  (between : list Event) :
  trim (idToVerify st id) <> [] ->
  capReached st = false ->
  env (verifyCredential (idToVerify st id)) = inl (Some c) ->
  let tr := trace env (handleVerify st id) in
  let waiting := replay apply between (replay apply (Page.request tr) cur) in
  let s' := Page.overlapped tr between cur in
  credential s' = Some c
  /\ loading s' = false
  /\ resultPanel s' = searched waiting
  /\ error s' = error waiting
  /\ verificationCount s' =
       (if truthy_opt (walletAddress st) && negb (hasAccess st)
        then verificationCount waiting + 1 else verificationCount waiting)
  /\ (forallb (fun ev => negb (Page.setsError ev)) between = true ->
      error s' = None /\ errorBox s' = false)
  /\ (between = [] -> resultPanel s' = true /\ error s' = None).
Proof.
  intros Hid Hcap Hreply tr waiting s'.
  destruct (handleVerify_cut_lookup env st id Hid Hcap) as [Hreq [Hres _]].
  rewrite Hreply in Hres.
  assert (Hs' : s' = replay apply (Page.resume tr) waiting) by reflexivity.
  assert (Herr : error s' = error waiting).
  { rewrite Hs'. subst tr. rewrite Hres.
    destruct (truthy_opt (walletAddress st) && negb (hasAccess st));
      reflexivity. }
  assert (Hquiet : forallb (fun ev => negb (Page.setsError ev)) between = true ->
                   error s' = None).
  { intros Hb. rewrite Herr. subst waiting tr.
    apply (error_stays_null between Hb). rewrite Hreq. reflexivity. }
  assert (Hpanel : resultPanel s' = searched waiting).
  { rewrite Hs'. subst tr. rewrite Hres. unfold resultPanel.
    destruct (truthy_opt (walletAddress st) && negb (hasAccess st));
      simpl; apply andb_true_r. }
  split; [|split; [|split; [exact Hpanel|split; [exact Herr|split; [|split]]]]].
  - rewrite Hs'. subst tr. rewrite Hres.
    destruct (truthy_opt (walletAddress st) && negb (hasAccess st));
      reflexivity.
  - rewrite Hs'. subst tr. rewrite Hres.
    destruct (truthy_opt (walletAddress st) && negb (hasAccess st));
      reflexivity.
  - rewrite Hs'. subst tr. rewrite Hres.
    destruct (truthy_opt (walletAddress st) && negb (hasAccess st));
      reflexivity.
  - intros Hb. split; [exact (Hquiet Hb)|].
    unfold errorBox. rewrite (Hquiet Hb). reflexivity.
  - intros Hnone. split.
    + rewrite Hpanel. subst waiting tr between. rewrite Hreq. reflexivity.
    + apply Hquiet. rewrite Hnone. reflexivity.
Qed.

Lemma found_credential_is_shown_witness :
  let env := Samples.portalEnv (inl (Some Samples.diploma)) false in
  let failed := apply (setError (Some (js "old error"))) initialState in
  let tr := trace env (handleVerify failed (Some (js "7"))) in
  trim (idToVerify failed (Some (js "7"))) <> []
  /\ capReached failed = false
  /\ env (verifyCredential (idToVerify failed (Some (js "7")))) =
       inl (Some Samples.diploma)
  /\ error (Page.overlapped tr [EvSet (setTokenId (js "8"))] failed) = None
  /\ error (Page.overlapped tr
              [EvSet (setError (Some (js "Please enter a token ID")))] failed)
     = Some (js "Please enter a token ID").
Proof.
  intros env failed tr.
  assert (Hid : trim (idToVerify failed (Some (js "7"))) <> [])
    by (vm_compute; discriminate).
  split; [exact Hid|]. split; [reflexivity|]. split; [reflexivity|].
  split.
  - exact (proj1 (proj1 (proj2 (proj2 (proj2 (proj2 (proj2
             (found_credential_is_shown env failed failed (Some (js "7"))
                Samples.diploma [EvSet (setTokenId (js "8"))]
                Hid eq_refl eq_refl)))))) eq_refl)).
  - exact (proj1 (proj2 (proj2 (proj2
             (found_credential_is_shown env failed failed (Some (js "7"))
                Samples.diploma
                [EvSet (setError (Some (js "Please enter a token ID")))]
                Hid eq_refl eq_refl))))).
Defined.

(** X4: when the verification service throws a value other than null or
    undefined, the run, when the rejection arrives, sets the error to the
    value's message, or to "Failed to verify credential" when the message
    is missing or empty, so that the error box is rendered; it clears the
    loading flag and touches neither the credential nor the session
    counter.  No credential is stored and the result panel is not
    rendered then, unless another handler stored a credential while the
    run was waiting. *)
Theorem thrown_lookup_is_reported
  (env : Env) (st cur : State) (id : option jsstring)
  (m : option jsstring) (between : list Event) :
  trim (idToVerify st id) <> [] ->
  capReached st = false ->
  env (verifyCredential (idToVerify st id)) = inr (thrown m) ->
  let tr := trace env (handleVerify st id) in
  let waiting := replay apply between (replay apply (Page.request tr) cur) in
  let s' := Page.overlapped tr between cur in
  error s' = Some (or_else m (js "Failed to verify credential"))
  /\ (truthy_opt m = false ->
      error s' = Some (js "Failed to verify credential"))
  /\ errorBox s' = true
  /\ loading s' = false
  /\ credential s' = credential waiting
  /\ verificationCount s' = verificationCount waiting
  /\ (forallb (fun ev => negb (showsCredential ev)) between = true ->
      credential s' = None /\ resultPanel s' = false).
Proof.
  intros Hid Hcap Hreply tr waiting s'.
  destruct (handleVerify_cut_lookup env st id Hid Hcap) as [Hreq [Hres _]].
  rewrite Hreply in Hres. simpl in Hres.
  assert (Hs' : s' = replay apply (Page.resume tr) waiting) by reflexivity.
  subst tr. rewrite Hres in Hs'. simpl in Hs'.
  rewrite Hs'.
  split; [reflexivity|]. split.
  { intros Hm. simpl. destruct m as [[|c0 t]|]; simpl in Hm |- *;
      try reflexivity; discriminate Hm. }
  split.
  { unfold errorBox. simpl. apply SliceFacts.or_else_fallback. reflexivity. }
  split; [reflexivity|]. split; [reflexivity|]. split; [reflexivity|].
  intros Hb.
  assert (Hnone : credential waiting = None).
  { subst waiting. apply (credential_stays_null between Hb).
    rewrite Hreq. reflexivity. }
  split; [exact Hnone|]. unfold resultPanel. simpl. rewrite Hnone.
  apply andb_false_r.
Qed.

Lemma thrown_lookup_is_reported_witness :
  let env := Samples.portalEnv (inr (thrown (Some []))) false in
  let tr := trace env (handleVerify Samples.connectedVisitor (Some (js "7"))) in
  trim (idToVerify Samples.connectedVisitor (Some (js "7"))) <> []
  /\ capReached Samples.connectedVisitor = false
  /\ env (verifyCredential (idToVerify Samples.connectedVisitor (Some (js "7"))))
     = inr (thrown (Some []))
  /\ error (Page.overlapped tr [] Samples.connectedVisitor) =
       Some (js "Failed to verify credential").
Proof.
  intros env tr.
  assert (Hid : trim (idToVerify Samples.connectedVisitor (Some (js "7"))) <> [])
    by (vm_compute; discriminate).
  split; [exact Hid|]. split; [reflexivity|]. split; [reflexivity|].
  exact (proj1 (proj2
           (thrown_lookup_is_reported env Samples.connectedVisitor
              Samples.connectedVisitor (Some (js "7")) (Some []) []
              Hid eq_refl eq_refl)) eq_refl).
Defined.

(** X5: [handleVerify] rejects in one case only: the service rejects with
    null or undefined, so that reading [err.message] in the catch throws;
    the [finally] still clears the loading flag and no error is set.  When
    the handler has called the service, the searched flag is set as the
    lookup starts and the loading flag is false once the reply has been
    handled, whatever other handlers did meanwhile; when it has not (blank
    input, cap), there is nothing to resume and neither flag is touched. *)
Theorem handleVerify_settles
  (env : Env) (st cur : State) (id : option jsstring)
  (between : list Event) :
  let tr := trace env (handleVerify st id) in
  let s' := Page.overlapped tr between cur in
  (forall e,
      In (EvUncaught e) tr ->
      e = typeError
      /\ env (verifyCredential (idToVerify st id)) = inr nullish)
  /\ ((exists x, In (EvCall (verifyCredential x)) tr) ->
      env (verifyCredential (idToVerify st id)) = inr nullish ->
      Page.resume tr = [EvSet (setLoading false); EvUncaught typeError])
  /\ ((exists x, In (EvCall (verifyCredential x)) tr) ->
      searched (replay apply (Page.request tr) cur) = true
      /\ loading s' = false)
  /\ ((forall x, ~ In (EvCall (verifyCredential x)) tr) ->
      Page.resume tr = []
      /\ loading (replay apply tr cur) = loading cur
      /\ searched (replay apply tr cur) = searched cur).
Proof.
  intros tr s'. subst tr s'. unfold Page.overlapped.
  destruct (trim (idToVerify st id)) as [|c t] eqn:Hid.
  - rewrite (handleVerify_blank st id Hid).
    split; [intros e Hin; exfalso; absurd_event Hin|]. split; [|split].
    + intros [x Hin]. exfalso. absurd_event Hin.
    + intros [x Hin]. exfalso. absurd_event Hin.
    + intros _. repeat split.
  - assert (Hne : trim (idToVerify st id) <> []) by (rewrite Hid; discriminate).
    destruct (capReached st) eqn:Hcap.
    + rewrite (handleVerify_capped st id Hne Hcap).
      split; [intros e Hin; exfalso; absurd_event Hin|]. split; [|split].
      * intros [x Hin]. exfalso. absurd_event Hin.
      * intros [x Hin]. exfalso. absurd_event Hin.
      * intros _. repeat split.
    + destruct (handleVerify_cut_lookup env st id Hne Hcap)
        as [Hreq [Hres _]].
      rewrite Hreq, Hres.
      rewrite (handleVerify_lookup env st id Hne Hcap).
      destruct (env (verifyCredential (idToVerify st id))) as [[c0|]|[|msg]];
        [destruct (truthy_opt (walletAddress st) && negb (hasAccess st))| | |].
      all: split;
        [intros e Hin; simpl in Hin;
         repeat (destruct Hin as [Hin|Hin]; [try discriminate Hin|]);
         try (exfalso; exact Hin);
         injection Hin as <-; split; reflexivity|].
      all: split; [intros _ H; first [discriminate H|reflexivity]|].
      all: split; [intros _; split; reflexivity|].
      all: intros Hnone; exfalso; apply (Hnone (idToVerify st id)); pick_event.
Qed.

Lemma handleVerify_settles_witness :
  let env := Samples.portalEnv (inr nullish) false in
  let tr := trace env (handleVerify Samples.connectedVisitor (Some (js "7"))) in
  (exists x, In (EvCall (verifyCredential x)) tr)
  /\ env (verifyCredential
            (idToVerify Samples.connectedVisitor (Some (js "7")))) = inr nullish
  /\ Page.resume tr = [EvSet (setLoading false); EvUncaught typeError]
  /\ loading (Page.overlapped tr [EvSet (setLoading true)]
                Samples.connectedVisitor) = false.
Proof.
  intros env tr.
  assert (Hcall : exists x, In (EvCall (verifyCredential x)) tr)
    by (exists (js "7"); vm_compute; do 4 right; left; reflexivity).
  pose proof (handleVerify_settles env Samples.connectedVisitor
                Samples.connectedVisitor (Some (js "7"))
                [EvSet (setLoading true)]) as H.
  split; [exact Hcall|]. split; [reflexivity|]. split.
  - exact (proj1 (proj2 H) Hcall eq_refl).
  - exact (proj2 (proj1 (proj2 (proj2 H)) Hcall)).
Defined.

(** X6: the verification service is only ever called with [id || tokenId]
    as it stands: [trim] decides whether the input is blank, but the text
    sent is not trimmed. *)
Theorem service_gets_untrimmed_id
  (env : Env) (st : State) (id : option jsstring) (x : jsstring) :
  In (EvCall (verifyCredential x)) (trace env (handleVerify st id)) ->
  x = idToVerify st id /\ trim x <> [] /\ capReached st = false.
Proof.
  intros Hin.
  destruct (handleVerify_exits env st id)
    as [[_ Htr]|[[_ [_ Htr]]|[Hid [Hcap [rest [Htr [_ Hrest]]]]]]];
    rewrite Htr in Hin.
  - exfalso. absurd_event Hin.
  - exfalso. absurd_event Hin.
  - apply in_app_or in Hin. destruct Hin as [Hin|Hin].
    + simpl in Hin.
      repeat (destruct Hin as [Hin|Hin]; [try discriminate Hin|]);
        [|destruct Hin].
      injection Hin as <-. auto.
    + exfalso. exact (Hrest x Hin).
Qed.

Lemma service_gets_untrimmed_id_witness :
  let env := Samples.portalEnv (inl None) false in
  In (EvCall (verifyCredential (js " 7 ")))
     (trace env (handleVerify initialState (Some (js " 7 "))))
  /\ trim (js " 7 ") = js "7"
  /\ js " 7 " = idToVerify initialState (Some (js " 7 ")).
Proof.
  intros env.
  assert (Hin : In (EvCall (verifyCredential (js " 7 ")))
                  (trace env (handleVerify initialState (Some (js " 7 ")))))
    by (vm_compute; do 4 right; left; reflexivity).
  split; [exact Hin|]. split; [reflexivity|].
  exact (proj1 (service_gets_untrimmed_id env initialState
                  (Some (js " 7 ")) (js " 7 ") Hin)).
Defined.

Lemma attempt_keeps_searched (s : State) (a : Attempt) :
  searched s = true -> searched (attempt s a) = true.
Proof.
  intros Hs. unfold attempt, attemptTrace.
  destruct (trim (idToVerify (render s a) None)) as [|c t] eqn:Hid.
  - rewrite (handleVerify_blank _ _ Hid). exact Hs.
  - assert (Hne : trim (idToVerify (render s a) None) <> [])
      by (rewrite Hid; discriminate).
    destruct (capReached (render s a)) eqn:Hcap.
    + rewrite (handleVerify_capped _ _ Hne Hcap). exact Hs.
    + rewrite (handleVerify_lookup (replies a) _ _ Hne Hcap).
      destruct (replies a (verifyCredential (idToVerify (render s a) None)))
        as [[c0|]|[|msg]];
        [destruct (truthy_opt (walletAddress (render s a))
                   && negb (hasAccess (render s a)))| | |];
        reflexivity.
Qed.

(** X7: nothing in a session resets the searched flag: once a lookup has
    been made, the "Enter Token ID to Verify" placeholder is never rendered
    again, whatever is typed and whatever the service replies. *)
Theorem placeholder_never_returns (s : State) (hist : list Attempt) :
  searched s = true ->
  searched (session s hist) = true /\ placeholder (session s hist) = false.
Proof.
  intros Hs.
  assert (H : searched (session s hist) = true).
  { revert s Hs. induction hist as [|a rest IH]; intros s Hs; [exact Hs|].
    change (session s (a :: rest)) with (session (attempt s a) rest).
    apply IH. apply attempt_keeps_searched. exact Hs. }
  split; [exact H|]. unfold placeholder. rewrite H. reflexivity.
Qed.

Lemma placeholder_never_returns_witness :
  let found :=
    {| typed := js "7";
       replies := Samples.portalEnv (inl (Some Samples.diploma)) false |} in
  let blank :=
    {| typed := []; replies := Samples.portalEnv (inl None) false |} in
  let s := attempt initialState found in
  searched s = true
  /\ placeholder (session s [blank; found; blank]) = false.
Proof.
  intros found blank s.
  split; [reflexivity|].
  exact (proj2 (placeholder_never_returns s [blank; found; blank] eq_refl)).
Defined.

(** X8: an attempt that the cap rejects always gets the pricing modal on
    screen: the rejection needs a connected wallet, which is what the modal
    needs besides the flag; the limit banner and the error box are rendered
    with it. *)
Theorem cap_rejection_shows_pricing_modal
  (env : Env) (st : State) (id : option jsstring) :
  blocked (trace env (handleVerify st id)) = true ->
  let s' := run env (handleVerify st id) st in
  pricingModal s' = true /\ limitBanner s' = true /\ errorBox s' = true.
Proof.
  intros Hblocked s'. subst s'. unfold run, Async.run.
  destruct (handleVerify_exits env st id)
    as [[_ Htr]|[[_ [Hcap Htr]]|[_ [_ [rest [Htr [Hrest _]]]]]]].
  - rewrite Htr in Hblocked. discriminate Hblocked.
  - rewrite Htr. unfold pricingModal, limitBanner. simpl.
    split; [|split; [exact Hcap|reflexivity]].
    unfold capReached in Hcap.
    apply andb_true_iff in Hcap as [Hcap _].
    apply andb_true_iff in Hcap as [Hw _]. exact Hw.
  - rewrite Htr in Hblocked. unfold blocked in Hblocked, Hrest.
    rewrite existsb_app, Hrest in Hblocked. discriminate Hblocked.
Qed.

Lemma cap_rejection_shows_pricing_modal_witness :
  let env := Samples.portalEnv (inl (Some Samples.diploma)) false in
  let st := apply (setVerificationCount (fun _ => 3)) Samples.connectedVisitor in
  blocked (trace env (handleVerify st (Some (js "8")))) = true
  /\ pricingModal (run env (handleVerify st (Some (js "8"))) st) = true.
Proof.
  intros env st.
  split; [reflexivity|].
  exact (proj1 (cap_rejection_shows_pricing_modal env st (Some (js "8"))
                  eq_refl)).
Defined.

(** X9: [onSuccess] of the pricing modal closes the modal and asks the
    subscription service again; the answer alone decides the cap from then
    on.  With access granted, a visitor who had used up the free
    verifications reaches the service again; with access denied the cap
    stands as before.  The session counter is not reset. *)
Theorem subscription_decides_cap
  (env : Env) (st : State) (address : jsstring) (r : Subscription.t) :
  walletAddress st = Some address ->
  truthy address = true ->
  env (checkUserSubscription address (js "employer")) = inl r ->
  let s1 := run env (onSuccess st) st in
  showPricing s1 = false
  /\ checkingAccess s1 = false
  /\ hasAccess s1 = Subscription.hasAccess r
  /\ verificationCount s1 = verificationCount st
  /\ capReached s1 =
       negb (Subscription.hasAccess r) && (3 <=? verificationCount st)
  /\ (Subscription.hasAccess r = true ->
      forall (env' : Env) (id : option jsstring),
        trim (idToVerify s1 id) <> [] ->
        exists rest,
          trace env' (handleVerify s1 id) =
            lookupRequest (idToVerify s1 id) ++ rest).
Proof.
  intros Hw Ht Hr s1.
  assert (Hs1 : s1 =
    apply (setCheckingAccess false)
      (apply (setHasAccess (Subscription.hasAccess r))
         (apply (setCheckingAccess true) (apply (setShowPricing false) st)))).
  { subst s1. unfold run, Async.run, trace, onSuccess, checkAccess.
    rewrite Hw, Ht. simpl. rewrite Hr. reflexivity. }
  assert (Hcap : capReached s1 =
                 negb (Subscription.hasAccess r) && (3 <=? verificationCount st)).
  { rewrite Hs1. unfold capReached. simpl. rewrite Hw. simpl. rewrite Ht.
    reflexivity. }
  rewrite Hs1 at 1 2 3 4.
  repeat split; [exact Hcap|].
  intros Haccess env' id Hid.
  rewrite Haccess in Hcap. simpl in Hcap.
  rewrite (handleVerify_lookup env' s1 id Hid Hcap).
  eexists. reflexivity.
Qed.

Lemma subscription_decides_cap_witness :
  let env := Samples.portalEnv (inl (Some Samples.diploma)) true in
  let st := apply (setVerificationCount (fun _ => 3)) Samples.connectedVisitor in
  walletAddress st = Some Samples.account
  /\ truthy Samples.account = true
  /\ env (checkUserSubscription Samples.account (js "employer")) =
       inl {| Subscription.hasAccess := true |}
  /\ capReached st = true
  /\ capReached (run env (onSuccess st) st) = false.
Proof.
  intros env st.
  split; [reflexivity|]. split; [reflexivity|]. split; [reflexivity|].
  split; [reflexivity|].
  exact (proj1 (proj2 (proj2 (proj2 (proj2
           (subscription_decides_cap env st Samples.account
              {| Subscription.hasAccess := true |}
              eq_refl eq_refl eq_refl)))))).
Defined.

(** X10: [checkAccess] has no [try]: when the subscription service throws,
    the rejection escapes the handler, [checkingAccess] stays true and
    [hasAccess] keeps the value it had. *)
Theorem checkAccess_failure_escapes
  (env : Env) (st cur : State) (address : jsstring) (e : JsError) :
  walletAddress st = Some address ->
  truthy address = true ->
  env (checkUserSubscription address (js "employer")) = inr e ->
  trace env (checkAccess st) =
    [EvSet (setCheckingAccess true);
     EvCall (checkUserSubscription address (js "employer"));
     EvUncaught e]
  /\ checkingAccess (run env (checkAccess st) cur) = true
  /\ hasAccess (run env (checkAccess st) cur) = hasAccess cur.
Proof.
  intros Hw Ht He.
  unfold run, Async.run, trace, checkAccess. rewrite Hw, Ht. simpl.
  rewrite He. simpl. repeat split.
Qed.

Lemma checkAccess_failure_escapes_witness :
  let env : Env :=
    fun c =>
      match c with
      | checkUserSubscription _ _ => inr Samples.rpcError
      | other => Samples.portalEnv (inl None) false other
      end in
  walletAddress Samples.connectedVisitor = Some Samples.account
  /\ truthy Samples.account = true
  /\ env (checkUserSubscription Samples.account (js "employer")) =
       inr Samples.rpcError
  /\ checkingAccess
       (run env (checkAccess Samples.connectedVisitor) Samples.connectedVisitor)
     = true.
Proof.
  intros env.
  split; [reflexivity|]. split; [reflexivity|]. split; [reflexivity|].
  exact (proj1 (proj2
           (checkAccess_failure_escapes env Samples.connectedVisitor
              Samples.connectedVisitor Samples.account Samples.rpcError
              eq_refl eq_refl eq_refl))).
Defined.

End VerificationPortalMore.

(** ** Further properties: forked calls *)

Module AsyncFacts.

(** A call forked last runs as it would alone. *)
Lemma trace_fork_last {Act Call : Type} {Reply : Call -> Type}
  (env : Async.Env Call Reply) (child : Async.Prog Act Call Reply) :
  trace env (Fork child Done) = trace env child.
Proof.
  unfold trace. simpl. rewrite !app_nil_r, app_assoc, AsyncCut.until_after_await.
  reflexivity.
Qed.

End AsyncFacts.

(** ** Further properties: the effects of the verification portal *)

Module VerificationPortalEffects.
Import VerificationPortal Session VerificationPortalFacts SessionFacts.

Ltac absurd_event H :=
  simpl in H; repeat (destruct H as [H|H]; [discriminate H|]); exact H.

(** X11: the wallet check on mount never rejects and connects at most the
    first authorized account: the wallet address becomes the first account
    when the provider lists any, and is left alone when there is no
    provider, when no account is authorized, and when the request throws
    (which is only logged). *)
Theorem wallet_check_takes_first_account
  (env : Env) (w : Window) (cur : State) :
  let tr := trace env (checkWalletConnection w) in
  let s' := run env (checkWalletConnection w) cur in
  (forall e, ~ In (EvUncaught e) tr)
  /\ walletAddress s' =
       (if ethereum w then
          match env eth_accounts with
          | inl (account :: _) => Some account
          | _ => walletAddress cur
          end
        else walletAddress cur)
  /\ (ethereum w = false -> tr = [])
  /\ (forall e,
         ethereum w = true ->
         env eth_accounts = inr e ->
         tr = [EvCall eth_accounts; EvLog (js "Error checking wallet:") e]
         /\ s' = cur).
Proof.
  intros tr s'. subst tr s'.
  unfold run, Async.run, trace, checkWalletConnection.
  destruct (ethereum w); simpl.
  - destruct (env eth_accounts) as [[|a l]|err] eqn:Hacc; simpl;
      (split; [intros e Hin; absurd_event Hin|]);
      (split; [reflexivity|]);
      (split; [intros H; discriminate H|]);
      intros e _ He; try discriminate He.
    injection He as <-. split; reflexivity.
  - split; [intros e []|]. split; [reflexivity|].
    split; [reflexivity|]. intros e H. discriminate H.
Qed.

Lemma wallet_check_takes_first_account_witness :
  let w := {| verifyParam := None; ethereum := true |} in
  let env : Env :=
    fun c =>
      match c with
      | eth_accounts => inr Samples.rpcError
      | other => Samples.portalEnv (inl None) false other
      end in
  ethereum w = true
  /\ env eth_accounts = inr Samples.rpcError
  /\ run env (checkWalletConnection w) Samples.connectedVisitor =
       Samples.connectedVisitor.
Proof.
  intros w env.
  split; [reflexivity|]. split; [reflexivity|].
  exact (proj2 (proj2 (proj2 (proj2
           (wallet_check_takes_first_account env w Samples.connectedVisitor)))
           Samples.rpcError eq_refl eq_refl)).
Defined.

(** X12: [handleConnectWallet] of the portal has no [try]: when
    [connectWallet] throws, the rejection escapes and the state is left as
    it was.  A null or empty address changes nothing either; any other
    address becomes the wallet address. *)
Theorem portal_connect_outcomes (env : Env) (cur : State) :
  let tr := trace env handleConnectWallet in
  let s' := run env handleConnectWallet cur in
  (forall e,
      env connectWallet = inr e ->
      tr = [EvCall connectWallet; EvUncaught e] /\ s' = cur)
  /\ (forall address,
         env connectWallet = inl address ->
         truthy_opt address = false ->
         tr = [EvCall connectWallet] /\ s' = cur)
  /\ (forall address,
         env connectWallet = inl address ->
         truthy_opt address = true ->
         tr = [EvCall connectWallet; EvSet (setWalletAddress address)]
         /\ walletAddress s' = address).
Proof.
  intros tr s'. subst tr s'.
  unfold run, Async.run, trace, handleConnectWallet. simpl.
  split; [|split].
  - intros e He. rewrite He. split; reflexivity.
  - intros address Ha Ht. rewrite Ha. simpl. rewrite Ht. split; reflexivity.
  - intros address Ha Ht. rewrite Ha. simpl. rewrite Ht. split; reflexivity.
Qed.

Lemma portal_connect_outcomes_witness :
  let env : Env :=
    fun c =>
      match c with
      | connectWallet => inr Samples.rpcError
      | other => Samples.portalEnv (inl None) false other
      end in
  env connectWallet = inr Samples.rpcError
  /\ trace env handleConnectWallet =
       [EvCall connectWallet; EvUncaught Samples.rpcError].
Proof.
  intros env.
  split; [reflexivity|].
  exact (proj1 (proj1 (portal_connect_outcomes env initialState)
                  Samples.rpcError eq_refl)).
Defined.

(** X13: without a [verify] query parameter, or with an empty one, the
    mount effect triggers no verification: it does what the wallet check
    does and nothing else, so the service is not called and the input, the
    searched flag and the error are left alone. *)
Theorem mount_without_param_only_checks_wallet
  (env : Env) (w : Window) (cur : State) :
  truthy_opt (verifyParam w) = false ->
  trace env (onMount w) = trace env (checkWalletConnection w)
  /\ (forall x, ~ In (EvCall (verifyCredential x)) (trace env (onMount w)))
  /\ tokenId (run env (onMount w) cur) = tokenId cur
  /\ searched (run env (onMount w) cur) = searched cur
  /\ error (run env (onMount w) cur) = error cur.
Proof.
  intros Hparam.
  assert (Htr : trace env (onMount w) = trace env (checkWalletConnection w)).
  { unfold onMount.
    destruct (verifyParam w) as [v|]; simpl in Hparam;
      [rewrite Hparam|]; apply AsyncFacts.trace_fork_last. }
  unfold run, Async.run. rewrite Htr.
  split; [reflexivity|].
  unfold trace, checkWalletConnection.
  destruct (ethereum w); simpl;
    [destruct (env eth_accounts) as [[|a l]|err]; simpl|];
    (split; [intros x Hin; absurd_event Hin|]); repeat split.
Qed.

Lemma mount_without_param_only_checks_wallet_witness :
  let w := {| verifyParam := Some []; ethereum := true |} in
  let env := Samples.portalEnv (inl (Some Samples.diploma)) false in
  truthy_opt (verifyParam w) = false
  /\ searched (run env (onMount w) initialState) = false.
Proof.
  intros w env.
  split; [reflexivity|].
  exact (proj1 (proj2 (proj2 (proj2
           (mount_without_param_only_checks_wallet env w initialState
              eq_refl))))).
Defined.

(** X14: the verification that a [verify] query parameter triggers is never
    capped and never counted, whatever wallet and counter the state cells
    hold when it runs: the mount effect closes over the first render, where
    no wallet is connected.  It never opens the pricing prompt and never
    updates the session counter.  Nothing of the mount effect rejects,
    except that verification when the service rejects with null or
    undefined. *)
Theorem deep_link_verification_is_free
  (env : Env) (w : Window) (cur : State) :
  let tr := trace env (onMount w) in
  blocked tr = false
  /\ counted tr = false
  /\ (forall e,
         In (EvUncaught e) tr ->
         e = typeError
         /\ exists v,
              verifyParam w = Some v
              /\ env (verifyCredential v) = inr nullish)
  /\ verificationCount (run env (onMount w) cur) = verificationCount cur
  /\ showPricing (run env (onMount w) cur) = showPricing cur.
Proof.
  intros tr. subst tr.
  unfold run, Async.run, trace, onMount.
  destruct (verifyParam w) as [v|]; [destruct (truthy v) eqn:Hv|].
  all: cbn [exec now later]; rewrite ?app_nil_r.
  all: unfold handleVerify, checkWalletConnection; cbv zeta.
  1: replace (idToVerify initialState (Some v)) with v
       by (unfold idToVerify; simpl; rewrite Hv; reflexivity);
     destruct (trim v) as [|c t]; simpl;
       [|destruct (env (verifyCredential v)) as [[c0|]|[|msg]] eqn:Hreply;
         simpl].
  all: destruct (ethereum w); simpl;
       [destruct (env eth_accounts) as [[|a l]|err]; simpl|].
  all: split; [reflexivity|]; split; [reflexivity|];
       split; [|split; reflexivity].
  all: intros e Hin;
       repeat (destruct Hin as [Hin|Hin]; [try discriminate Hin|]);
       try (exfalso; exact Hin);
       injection Hin as <-;
       (split; [reflexivity|exists v; split; [reflexivity|exact Hreply]]).
Qed.

Lemma deep_link_verification_is_free_witness :
  let w := {| verifyParam := Some (js "7"); ethereum := true |} in
  let env := Samples.portalEnv (inl (Some Samples.diploma)) false in
  let full := apply (setVerificationCount (fun _ => 3)) Samples.connectedVisitor in
  capReached full = true
  /\ blocked (trace env (onMount w)) = false
  /\ verificationCount (run env (onMount w) full) = 3.
Proof.
  intros w env full.
  split; [reflexivity|].
  split.
  - exact (proj1 (deep_link_verification_is_free env w full)).
  - exact (proj1 (proj2 (proj2 (proj2
             (deep_link_verification_is_free env w full))))).
Defined.



(** X24: connecting a wallet in the portal and letting the effect on
    [walletAddress] run asks the subscription service once, for the
    connected address and the role "employer", and stores the answer: a
    subscriber is uncapped as soon as the check has returned, whatever the
    session counter holds, and anyone else is capped by the counter.
    Without a wallet address the effect asks nothing. *)
Theorem connecting_checks_subscription
  (env : Env) (cur : State) (a : jsstring) (r : Subscription.t) :
  env connectWallet = inl (Some a) ->
  truthy a = true ->
  env (checkUserSubscription a (js "employer")) = inl r ->
  let s1 := run env handleConnectWallet cur in
  let s2 := run env (onWalletAddress s1) s1 in
  trace env (onWalletAddress s1) =
    [EvSet (setCheckingAccess true);
     EvCall (checkUserSubscription a (js "employer"));
     EvSet (setHasAccess (Subscription.hasAccess r));
     EvSet (setCheckingAccess false)]
  /\ walletAddress s2 = Some a
  /\ hasAccess s2 = Subscription.hasAccess r
  /\ checkingAccess s2 = false
  /\ capReached s2 =
       negb (Subscription.hasAccess r) && (3 <=? verificationCount cur)
  /\ (forall st,
         truthy_opt (walletAddress st) = false ->
         trace env (onWalletAddress st) = []).
Proof.
  intros Hconnect Ha Hr s1 s2.
  assert (Hs1 : s1 = apply (setWalletAddress (Some a)) cur).
  { subst s1. unfold run, Async.run, trace, handleConnectWallet. simpl.
    rewrite Hconnect. simpl. rewrite Ha. reflexivity. }
  assert (Htr : trace env (onWalletAddress s1) =
    [EvSet (setCheckingAccess true);
     EvCall (checkUserSubscription a (js "employer"));
     EvSet (setHasAccess (Subscription.hasAccess r));
     EvSet (setCheckingAccess false)]).
  { rewrite Hs1. unfold trace, onWalletAddress, checkAccess. simpl.
    rewrite Ha. simpl. rewrite Hr. reflexivity. }
  split; [exact Htr|].
  subst s2. unfold run, Async.run in *. rewrite Htr, Hs1.
  unfold capReached. simpl. rewrite Ha.
  repeat split.
  intros st Hst. unfold trace, onWalletAddress. rewrite Hst. reflexivity.
Qed.

Lemma connecting_checks_subscription_witness :
  let env := Samples.portalEnv (inl None) true in
  let full := apply (setVerificationCount (fun _ => 3)) initialState in
  env connectWallet = inl (Some Samples.account)
  /\ truthy Samples.account = true
  /\ env (checkUserSubscription Samples.account (js "employer")) =
       inl {| Subscription.hasAccess := true |}
  /\ capReached
       (run env (onWalletAddress (run env handleConnectWallet full))
          (run env handleConnectWallet full)) = false.
Proof.
  intros env full.
  split; [reflexivity|]. split; [reflexivity|]. split; [reflexivity|].
  exact (proj1 (proj2 (proj2 (proj2 (proj2
           (connecting_checks_subscription env full Samples.account
              {| Subscription.hasAccess := true |}
              eq_refl eq_refl eq_refl)))))).
Defined.

End VerificationPortalEffects.

(** ** Further properties: the student wallet *)

Module StudentWalletMore.
Import StudentWallet.

Ltac pick_event := simpl; repeat (first [left; reflexivity | right]).

Ltac absurd_event H :=
  simpl in H; repeat (destruct H as [H|H]; [discriminate H|]); exact H.

(** X16: when both fetches succeed, [loadCredentials] replaces the
    credentials list by the on-chain result and the records list by the
    backing-store result, both fetched for the address it was given, and the
    loading flag ends false; nothing is logged. *)
Theorem loadCredentials_success
  (env : Env) (address : jsstring) (cur : State)
  (creds : list Credential.t) (recs : list CredentialRecord.t) :
  env (getStudentCredentials address) = inl creds ->
  env (getCredentialsByStudent address) = inl recs ->
  let s' := run env (loadCredentials address) cur in
  trace env (loadCredentials address) =
    [EvSet (setLoading true);
     EvCall (getStudentCredentials address);
     EvSet (setCredentials creds);
     EvCall (getCredentialsByStudent address);
     EvSet (setDbCredentials recs);
     EvSet (setLoading false)]
  /\ credentials s' = creds
  /\ dbCredentials s' = recs
  /\ loading s' = false
  /\ walletAddress s' = walletAddress cur.
Proof.
  intros Hc Hr s'. subst s'.
  unfold run, Async.run, trace, loadCredentials. simpl.
  rewrite Hc. simpl. rewrite Hr. simpl. repeat split.
Qed.

Lemma loadCredentials_success_witness :
  let env :=
    Samples.walletEnv (inl (Some Samples.account)) (inl tt)
      (inl [Samples.diploma]) (inl []) in
  env (getStudentCredentials Samples.account) = inl [Samples.diploma]
  /\ env (getCredentialsByStudent Samples.account) = inl []
  /\ credentials (run env (loadCredentials Samples.account) initialState) =
       [Samples.diploma].
Proof.
  intros env.
  split; [reflexivity|]. split; [reflexivity|].
  exact (proj1 (proj2
           (loadCredentials_success env Samples.account initialState
              [Samples.diploma] [] eq_refl eq_refl))).
Defined.

(** X17: [loadCredentials] never rejects, whatever the two services reply;
    when it has finished the loading flag is false, so the spinner is gone,
    and the wallet address, the tab and the three modal cells are as they
    were.  The backing store is queried only after the on-chain fetch has
    succeeded, and for the same address. *)
Theorem loadCredentials_settles
  (env : Env) (address : jsstring) (cur : State) :
  let tr := trace env (loadCredentials address) in
  let s' := run env (loadCredentials address) cur in
  (forall e, ~ In (EvUncaught e) tr)
  /\ loading s' = false
  /\ mainView s' <> Spinner
  /\ walletAddress s' = walletAddress cur
  /\ activeTab s' = activeTab cur
  /\ selectedCredential s' = selectedCredential cur
  /\ shareCredential s' = shareCredential cur
  /\ viewAuditCredential s' = viewAuditCredential cur
  /\ (forall x,
         In (EvCall (getCredentialsByStudent x)) tr ->
         x = address
         /\ exists creds, env (getStudentCredentials address) = inl creds).
Proof.
  intros tr s'. subst tr s'.
  unfold run, Async.run, trace, loadCredentials, mainView. simpl.
  destruct (env (getStudentCredentials address)) as [creds|e1] eqn:Hc; simpl;
    [destruct (env (getCredentialsByStudent address)) as [recs|e2]; simpl|].
  all: split; [intros e Hin; absurd_event Hin|].
  all: split; [reflexivity|].
  all: split; [destruct (activeTab cur); simpl;
               repeat match goal with
                      | |- context [if ?b then _ else _] => destruct b
                      end; discriminate|].
  all: do 5 (split; [reflexivity|]).
  all: intros x Hin; simpl in Hin;
       repeat (destruct Hin as [Hin|Hin]; [try discriminate Hin|]);
       try (exfalso; exact Hin).
  all: injection Hin as <-; split; [reflexivity|eexists; reflexivity].
Qed.

(** X18: there is no error view in the wallet: when the on-chain fetch
    throws, the credentials tab shows what an untouched credentials list
    gives once loading has ended: "No Credentials Found" when the list was
    empty, and the list as it was otherwise. *)
Theorem failed_load_looks_like_no_credentials
  (env : Env) (address : jsstring) (cur : State) (e : JsError) :
  env (getStudentCredentials address) = inr e ->
  activeTab cur = credentialsTab ->
  let s' := run env (loadCredentials address) cur in
  credentials s' = credentials cur
  /\ mainView s' =
       (if List.length (credentials cur) =? 0 then NoCredentialsFound
        else if view3D cur then Showcase3D else CredentialGrid)
  /\ (credentials cur = [] -> mainView s' = NoCredentialsFound).
Proof.
  intros He Htab s'. subst s'.
  unfold run, Async.run, trace, loadCredentials, mainView. simpl.
  rewrite He. simpl. rewrite Htab.
  split; [reflexivity|]. split; [reflexivity|].
  intros ->. reflexivity.
Qed.

Lemma failed_load_looks_like_no_credentials_witness :
  let env :=
    Samples.walletEnv (inl (Some Samples.account)) (inl tt)
      (inr Samples.rpcError) (inl []) in
  let connected := apply (setWalletAddress (Some Samples.account)) initialState in
  env (getStudentCredentials Samples.account) = inr Samples.rpcError
  /\ activeTab connected = credentialsTab
  /\ credentials connected = []
  /\ mainView (run env (loadCredentials Samples.account) connected) =
       NoCredentialsFound.
Proof.
  intros env connected.
  split; [reflexivity|]. split; [reflexivity|]. split; [reflexivity|].
  exact (proj2 (proj2
           (failed_load_looks_like_no_credentials env Samples.account
              connected Samples.rpcError eq_refl eq_refl)) eq_refl).
Defined.

Lemma loadCredentials_settles_witness :
  let env :=
    Samples.walletEnv (inl (Some Samples.account)) (inl tt)
      (inl [Samples.diploma]) (inr Samples.rpcError) in
  let busy := apply (setLoading true) initialState in
  In (EvCall (getCredentialsByStudent Samples.account))
     (trace env (loadCredentials Samples.account))
  /\ loading busy = true
  /\ loading (run env (loadCredentials Samples.account) busy) = false
  /\ mainView (run env (loadCredentials Samples.account) busy) <> Spinner.
Proof.
  intros env busy.
  split; [vm_compute; do 3 right; left; reflexivity|].
  split; [reflexivity|].
  split.
  - exact (proj1 (proj2 (loadCredentials_settles env Samples.account busy))).
  - exact (proj1 (proj2 (proj2
             (loadCredentials_settles env Samples.account busy)))).
Defined.

(** X19: when [connectWallet] resolves to null or to an empty address,
    [handleConnectWallet] switches no network and loads nothing: the wallet
    address and the two lists are as they were, the loading flag ends
    false and nothing is logged. *)
Theorem declined_connection_changes_nothing
  (env : Env) (cur : State) (address : option jsstring) :
  env connectWallet = inl address ->
  truthy_opt address = false ->
  let s' := run env handleConnectWallet cur in
  trace env handleConnectWallet =
    [EvSet (setLoading true); EvCall connectWallet; EvSet (setLoading false)]
  /\ walletAddress s' = walletAddress cur
  /\ connectScreen s' = connectScreen cur
  /\ credentials s' = credentials cur
  /\ dbCredentials s' = dbCredentials cur
  /\ loading s' = false.
Proof.
  intros Ha Ht s'. subst s'.
  unfold run, Async.run, trace, handleConnectWallet. cbn -[js].
  rewrite Ha.
  destruct address as [a|]; [simpl in Ht; rewrite Ht|]; cbn -[js];
    repeat split.
Qed.

Lemma declined_connection_changes_nothing_witness :
  let env := Samples.walletEnv (inl None) (inl tt) (inl [Samples.diploma]) (inl []) in
  env connectWallet = inl None
  /\ truthy_opt None = false
  /\ connectScreen (run env handleConnectWallet initialState) = true.
Proof.
  intros env.
  split; [reflexivity|]. split; [reflexivity|].
  exact (proj1 (proj2 (proj2
           (declined_connection_changes_nothing env initialState None
              eq_refl eq_refl)))).
Defined.

(** X20: when every step succeeds, [handleConnectWallet] authorizes, stores
    the address, switches the network and only then loads the credentials
    of that address: the connect screen is left, both lists hold what was
    fetched and the loading flag ends false.  The handler's own [finally]
    clears the loading flag while the load it started is still waiting. *)
Theorem connection_loads_credentials
  (env : Env) (cur : State) (a : jsstring)
  (creds : list Credential.t) (recs : list CredentialRecord.t) :
  env connectWallet = inl (Some a) ->
  truthy a = true ->
  env switchToSepolia = inl tt ->
  env (getStudentCredentials a) = inl creds ->
  env (getCredentialsByStudent a) = inl recs ->
  let r := exec env handleConnectWallet in
  let s' := run env handleConnectWallet cur in
  now r =
    [EvSet (setLoading true); EvCall connectWallet;
     EvSet (setWalletAddress (Some a)); EvCall switchToSepolia;
     EvSet (setLoading true); EvCall (getStudentCredentials a);
     EvSet (setLoading false)]
  /\ later r =
       [EvSet (setCredentials creds); EvCall (getCredentialsByStudent a);
        EvSet (setDbCredentials recs); EvSet (setLoading false)]
  /\ loading (replay apply (now r) cur) = false
  /\ walletAddress s' = Some a
  /\ connectScreen s' = false
  /\ credentials s' = creds
  /\ dbCredentials s' = recs
  /\ loading s' = false.
Proof.
  intros Hconnect Ha Hswitch Hc Hr r s'. subst r s'.
  unfold run, Async.run, trace, handleConnectWallet. cbn -[js].
  rewrite Hconnect. cbn -[js]. rewrite Ha. cbn -[js].
  rewrite Hswitch. cbn -[js]. rewrite Hc. cbn -[js]. rewrite Hr. cbn -[js].
  repeat split.
  unfold connectScreen. simpl. rewrite Ha. reflexivity.
Qed.

Lemma connection_loads_credentials_witness :
  let env :=
    Samples.walletEnv (inl (Some Samples.account)) (inl tt)
      (inl [Samples.diploma]) (inl []) in
  env connectWallet = inl (Some Samples.account)
  /\ truthy Samples.account = true
  /\ env switchToSepolia = inl tt
  /\ env (getStudentCredentials Samples.account) = inl [Samples.diploma]
  /\ env (getCredentialsByStudent Samples.account) = inl []
  /\ walletAddress (run env handleConnectWallet initialState) =
       Some Samples.account.
Proof.
  intros env.
  do 5 (split; [reflexivity|]).
  exact (proj1 (proj2 (proj2 (proj2
           (connection_loads_credentials env initialState Samples.account
              [Samples.diploma] [] eq_refl eq_refl eq_refl eq_refl eq_refl))))).
Defined.

(** X21: the mount effect of the wallet never rejects.  Without a provider
    it does nothing; when the account request throws it only logs; with no
    authorized account it changes nothing; otherwise it connects the first
    account and then does exactly what [loadCredentials] does for that
    account. *)
Theorem wallet_mount_loads_first_account
  (env : Env) (ethereum : bool) (cur : State) :
  let tr := trace env (onMount ethereum) in
  let s' := run env (onMount ethereum) cur in
  (forall e, ~ In (EvUncaught e) tr)
  /\ (ethereum = false -> tr = [])
  /\ (forall e,
         ethereum = true ->
         env eth_accounts = inr e ->
         tr = [EvCall eth_accounts;
               EvLog (js "Error checking wallet connection:") e]
         /\ s' = cur)
  /\ (ethereum = true -> env eth_accounts = inl [] ->
      tr = [EvCall eth_accounts] /\ s' = cur)
  /\ (forall account rest,
         ethereum = true ->
         env eth_accounts = inl (account :: rest) ->
         tr = [EvCall eth_accounts; EvSet (setWalletAddress (Some account))]
              ++ trace env (loadCredentials account)
         /\ walletAddress s' = Some account
         /\ loading s' = false).
Proof.
  intros tr s'. subst tr s'.
  unfold run, Async.run, onMount.
  rewrite AsyncFacts.trace_fork_last.
  unfold trace, checkWalletConnection.
  destruct ethereum; cbn -[js].
  - destruct (env eth_accounts) as [[|a l]|err] eqn:Hacc; cbn -[js].
    + split; [intros e Hin; absurd_event Hin|].
      split; [discriminate|]. split; [intros e _ H; discriminate H|].
      split; [intros _ _; split; reflexivity|].
      intros account rest _ H. discriminate H.
    + destruct (env (getStudentCredentials a)) as [creds|e1] eqn:Hc;
        cbn -[js];
        [destruct (env (getCredentialsByStudent a)) as [recs|e2] eqn:Hr;
         cbn -[js]|].
      all: split; [intros e Hin; absurd_event Hin|].
      all: split; [discriminate|].
      all: split; [intros e _ H; discriminate H|].
      all: split; [intros _ H; discriminate H|].
      all: intros account rest _ H; injection H as <- <-.
      all: unfold trace, loadCredentials; cbn -[js];
           rewrite Hc; cbn -[js]; rewrite ?Hr; cbn -[js].
      all: repeat split.
    + split; [intros e Hin; absurd_event Hin|].
      split; [discriminate|].
      split; [intros e _ H; injection H as <-; split; reflexivity|].
      split; [intros _ H; discriminate H|].
      intros account rest _ H. discriminate H.
  - split; [intros e []|]. split; [reflexivity|].
    split; [intros e H; discriminate H|].
    split; [intros H; discriminate H|].
    intros account rest H. discriminate H.
Qed.

Lemma wallet_mount_loads_first_account_witness :
  let env : Env :=
    fun c =>
      match c with
      | eth_accounts => inl [Samples.account; js "0x3333"]
      | other =>
          Samples.walletEnv (inl None) (inl tt) (inl [Samples.diploma])
            (inl []) other
      end in
  env eth_accounts = inl [Samples.account; js "0x3333"]
  /\ walletAddress (run env (onMount true) initialState) = Some Samples.account
  /\ credentials (run env (onMount true) initialState) = [Samples.diploma].
Proof.
  intros env.
  split; [reflexivity|].
  split; [|reflexivity].
  exact (proj1 (proj2
           (proj2 (proj2 (proj2 (proj2
              (wallet_mount_loads_first_account env true initialState))))
              Samples.account [js "0x3333"] eq_refl eq_refl))).
Defined.

Lemma find_first_match {A : Type} (f : A -> bool) (pre post : list A) (x : A) :
  (forall y, In y pre -> f y = false) ->
  f x = true ->
  find f (pre ++ x :: post) = Some x.
Proof.
  intros Hpre Hx. induction pre as [|y pre IH]; simpl.
  - rewrite Hx. reflexivity.
  - rewrite (Hpre y (or_introl eq_refl)). apply IH.
    intros z Hz. apply Hpre. right. exact Hz.
Qed.

(** X22: the History button opens the audit trail of the first
    backing-store record whose token ID is the credential's: later records
    with the same token ID are never reached.  The modal is rendered unless
    that record's identifier is the empty string. *)
Theorem history_opens_first_matching_record
  (env : Env) (st cur : State) (credential : Credential.t)
  (pre post : list CredentialRecord.t) (record : CredentialRecord.t) :
  dbCredentials st = pre ++ record :: post ->
  CredentialRecord.token_id record = Credential.tokenId credential ->
  (forall c, In c pre ->
             CredentialRecord.token_id c <> Credential.tokenId credential) ->
  let s' := run env (onHistory st credential) cur in
  trace env (onHistory st credential) =
    [EvSet (setViewAuditCredential (Some (CredentialRecord.id record)))]
  /\ viewAuditCredential s' = Some (CredentialRecord.id record)
  /\ auditModal s' = truthy (CredentialRecord.id record).
Proof.
  intros Hdb Hrec Hpre s'. subst s'.
  unfold run, Async.run, trace, onHistory. rewrite Hdb.
  rewrite find_first_match.
  - repeat split.
  - intros c Hc.
    destruct (strictEq (CredentialRecord.token_id c)
                (Credential.tokenId credential)) eqn:Heq; [|reflexivity].
    apply SliceFacts.strictEq_spec in Heq. exfalso. exact (Hpre c Hc Heq).
  - apply SliceFacts.strictEq_spec. exact Hrec.
Qed.

Lemma history_opens_first_matching_record_witness :
  let other := {| CredentialRecord.id := js "a"; CredentialRecord.token_id := js "3" |} in
  let first := {| CredentialRecord.id := js "b"; CredentialRecord.token_id := js "7" |} in
  let second := {| CredentialRecord.id := js "c"; CredentialRecord.token_id := js "7" |} in
  let st := apply (setDbCredentials [other; first; second]) initialState in
  let env := Samples.walletEnv (inl None) (inl tt) (inl []) (inl []) in
  dbCredentials st = [other] ++ first :: [second]
  /\ CredentialRecord.token_id first = Credential.tokenId Samples.diploma
  /\ (forall c, In c [other] ->
        CredentialRecord.token_id c <> Credential.tokenId Samples.diploma)
  /\ viewAuditCredential (run env (onHistory st Samples.diploma) st) =
       Some (js "b").
Proof.
  intros other first second st env.
  assert (Hpre : forall c, In c [other] ->
            CredentialRecord.token_id c <> Credential.tokenId Samples.diploma).
  { intros c [<-|[]]. vm_compute. discriminate. }
  split; [reflexivity|]. split; [reflexivity|]. split; [exact Hpre|].
  exact (proj1 (proj2
           (history_opens_first_matching_record env st st Samples.diploma
              [other] [second] first eq_refl eq_refl Hpre))).
Defined.

(** X23: when no backing-store record has the credential's token ID, the
    History button does nothing at all: no setter is called and the state
    is as it was.  This is the case for every credential as long as the
    records list is empty. *)
Theorem history_without_record_does_nothing
  (env : Env) (st cur : State) (credential : Credential.t) :
  (forall c, In c (dbCredentials st) ->
             CredentialRecord.token_id c <> Credential.tokenId credential) ->
  trace env (onHistory st credential) = []
  /\ run env (onHistory st credential) cur = cur.
Proof.
  intros Hnone. unfold run, Async.run, trace, onHistory.
  destruct (find _ (dbCredentials st)) as [rec|] eqn:Hfind.
  - exfalso. apply find_some in Hfind as [Hin Heq].
    apply SliceFacts.strictEq_spec in Heq. exact (Hnone rec Hin Heq).
  - split; reflexivity.
Qed.

Lemma history_without_record_does_nothing_witness :
  let env :=
    Samples.walletEnv (inl (Some Samples.account)) (inl tt)
      (inl [Samples.diploma]) (inr Samples.rpcError) in
  let loaded := run env (loadCredentials Samples.account) initialState in
  credentials loaded = [Samples.diploma]
  /\ (forall c, In c (dbCredentials loaded) ->
        CredentialRecord.token_id c <> Credential.tokenId Samples.diploma)
  /\ run env (onHistory loaded Samples.diploma) loaded = loaded.
Proof.
  intros env loaded.
  assert (Hnone : forall c, In c (dbCredentials loaded) ->
            CredentialRecord.token_id c <> Credential.tokenId Samples.diploma)
    by (intros c []).
  split; [reflexivity|]. split; [exact Hnone|].
  exact (proj2 (history_without_record_does_nothing env loaded loaded
                  Samples.diploma Hnone)).
Defined.

End StudentWalletMore.
